(** * tstyche-reporters: event dispatch, diagnostic formatting and the
      dot / mocha renderers

    Shallow embedding of [lib/tstyche-base-reporter.js],
    [lib/tstyche-dot-reporter.js], [lib/tstyche-mocha-reporter.js] and
    [lib/utils.js].

    - JavaScript values of type [string | undefined] are [option string];
      a property that may be missing from an object is an [option] field.
    - The process-wide output streams are a chronological list of the
      calls made on them ([process.stdout.write], [console.log],
      [console.error]), carried in the reporter state.
    - A call that may throw returns an [Outcome]: the reporter as it is
      when the call returns, or as it is when the exception leaves it.
    - The [MarkdownOrChalk] formatter is an external package; it is a
      record of its members, and the results hold for every formatter.
      Two sample formatters serve the concrete examples. *)

From Stdlib Require Import String Ascii List Bool Arith Lia.
Import ListNotations.
Open Scope string_scope.
Set Warnings "-register-all".

(* ================================================================= *)
(** ** JavaScript string helpers *)

(** The one-character string written ['\n'] in the source. *)
Definition nl : string := String (ascii_of_nat 10) EmptyString.

(** [Array.prototype.join]. *)
Definition join (sep : string) (parts : list string) : string :=
  String.concat sep parts.

(** Truthiness of a [string | undefined] value: [undefined] and the empty
    string are falsy. *)
Definition truthy (v : option string) : bool :=
  match v with
  | Some s => negb (String.eqb s "")
  | None => false
  end.

(** [String.prototype.endsWith]. *)
Definition endsWith (s suffix : string) : bool :=
  Nat.leb (String.length suffix) (String.length s) &&
  String.eqb
    (substring (String.length s - String.length suffix) (String.length suffix) s)
    suffix.

(** [a !== b] on two [string | undefined] values. *)
Definition strictNotEquals (a b : option string) : bool :=
  match a, b with
  | Some x, Some y => negb (String.eqb x y)
  | None, None => false
  | _, _ => true
  end.

(** Template-literal interpolation [`${v}`] of a [string | undefined]. *)
Definition interpolate (v : option string) : string :=
  match v with
  | Some s => s
  | None => "undefined"
  end.

(* ================================================================= *)
(** ** Diagnostics *)

(** [Diagnostic.text] is [string | Array<string>]. *)
Inductive DiagnosticText : Type :=
| TextLine (line : string)
| TextLines (lines : list string).

(** The members of a tstyche [Diagnostic] that the reporters read. *)
Inductive Diagnostic : Type :=
| mkDiagnostic (text : DiagnosticText)
               (code : option string)
               (category : option string)
               (related : option (list Diagnostic)).

Definition text (d : Diagnostic) : DiagnosticText :=
  match d with mkDiagnostic t _ _ _ => t end.
Definition code (d : Diagnostic) : option string :=
  match d with mkDiagnostic _ c _ _ => c end.
Definition category (d : Diagnostic) : option string :=
  match d with mkDiagnostic _ _ c _ => c end.
Definition related (d : Diagnostic) : option (list Diagnostic) :=
  match d with mkDiagnostic _ _ _ r => r end.

(** [Array.isArray(diagnostic.text) ? diagnostic.text : [diagnostic.text]] *)
Definition textLines (t : DiagnosticText) : list string :=
  match t with
  | TextLine line => [line]
  | TextLines lines => lines
  end.

(** [diagnostic.code ? ` (${diagnostic.code})` : ''] *)
Definition codeSuffix (c : option string) : string :=
  if truthy c then " (" ++ interpolate c ++ ")" else "".

(** [diagnostic.category ? ` [${diagnostic.category}]` : ''] *)
Definition categorySuffix (c : option string) : string :=
  if truthy c then " [" ++ interpolate c ++ "]" else "".

(** [text.map((line, index) => line + (index === 0 ? code : ''))] *)
Definition withCodeInline (codeText : string) (lines : list string)
  : list string :=
  match lines with
  | [] => []
  | first :: rest => (first ++ codeText) :: map (fun line => line ++ "") rest
  end.

(** The text assembled before the related entries are looked at:
    [lines.join('\n') + category]. *)
Definition primaryText (d : Diagnostic) : string :=
  join nl (withCodeInline (codeSuffix (code d)) (textLines (text d)))
  ++ categorySuffix (category d).

(** [_formatDiagnostic]. *)
Fixpoint _formatDiagnostic (diagnostic : Diagnostic) : string :=
  match diagnostic with
  | mkDiagnostic t c cat rel =>
      let output :=
        join nl (withCodeInline (codeSuffix c) (textLines t))
        ++ categorySuffix cat in
      match rel with
      | Some (r :: rs) =>
          output ++ nl ++
          join nl (map (fun related => "  " ++ _formatDiagnostic related)
                       (r :: rs))
      | _ => output
      end
  end.

(* ================================================================= *)
(** ** The external collaborators *)

(** The members of a [MarkdownOrChalk] instance (package
    [markdown-or-chalk]) that the reporters use. *)
Module MarkdownOrChalk.

(** The colorizer: the two members the reporters call. *)
Record Chalk : Type := mkChalk {
  red : string -> string;
  gray : string -> string
}.

(** [chalk] is [undefined] in markdown mode. *)
Record Format : Type := mkFormat {
  header : string -> nat -> string;
  indent : string -> nat -> string;
  logSymbols_success : string;
  logSymbols_error : string;
  chalk : option Chalk
}.

End MarkdownOrChalk.

Definition Format : Type := MarkdownOrChalk.Format.

(** One call on the process output streams. *)
Inductive OutItem : Type :=
| StdoutWrite (chunk : string)   (* process.stdout.write(chunk) *)
| ConsoleLog (line : string)     (* console.log(line) *)
| ConsoleError (line : string).  (* console.error(line) *)

(** Event tuples as tstyche delivers them: [[kind, payload]].  A payload is
    an object; the members the reporters read may each be missing. *)
Module Tstyche.

(** [result.describe] and [result.test]: objects with a [name]. *)
Record Named : Type := mkNamed {
  name : option string
}.

Record Result : Type := mkResult {
  describe : option Named;
  test : option Named
}.

Record Payload : Type := mkPayload {
  diagnostics : option (list Diagnostic);
  compilerVersion : option string;
  result : option Result
}.

Definition ReporterEvent : Type := (string * Payload)%type.

End Tstyche.

(* ================================================================= *)
(** ** Reporter objects *)

(** A reporter instance: the fields of [TstycheBaseReporter], the fields
    [own] that a subclass adds, and the output produced so far. *)
Record Reporter (X : Type) : Type := mkReporter {
  format : Format;
  currentCompilerVersion : option string;
  lastShownCompilerVersion : option string;
  own : X;
  console : list OutItem
}.

Arguments mkReporter {X}.
Arguments format {X}.
Arguments currentCompilerVersion {X}.
Arguments lastShownCompilerVersion {X}.
Arguments own {X}.
Arguments console {X}.

Definition set_currentCompilerVersion {X} (v : option string)
  (this : Reporter X) : Reporter X :=
  mkReporter (format this) v (lastShownCompilerVersion this)
             (own this) (console this).

Definition set_lastShownCompilerVersion {X} (v : option string)
  (this : Reporter X) : Reporter X :=
  mkReporter (format this) (currentCompilerVersion this) v
             (own this) (console this).

Definition set_own {X} (x : X) (this : Reporter X) : Reporter X :=
  mkReporter (format this) (currentCompilerVersion this)
             (lastShownCompilerVersion this) x (console this).

(** Append one call to the output. *)
Definition emit {X} (item : OutItem) (this : Reporter X) : Reporter X :=
  mkReporter (format this) (currentCompilerVersion this)
             (lastShownCompilerVersion this) (own this)
             (console this ++ [item]).

(** How a method call ends. *)
Inductive Outcome (X : Type) : Type :=
| Returned (this : Reporter X)
| Thrown (this : Reporter X) (message : string).

Arguments Returned {X}.
Arguments Thrown {X}.

Definition reporterOf {X} (o : Outcome X) : Reporter X :=
  match o with
  | Returned this => this
  | Thrown this _ => this
  end.

Definition throws {X} (o : Outcome X) : bool :=
  match o with
  | Returned _ => false
  | Thrown _ _ => true
  end.

(** Sequencing of two calls: an exception skips the rest. *)
Definition andThen {X} (o : Outcome X) (k : Reporter X -> Outcome X)
  : Outcome X :=
  match o with
  | Returned this => k this
  | Thrown this message => Thrown this message
  end.

Notation "o >>= k" := (andThen o k) (at level 50, left associativity).

(** A handler slot of the class: [(payload) => void] on an instance. *)
Definition Handler (X : Type) : Type :=
  Tstyche.Payload -> Reporter X -> Outcome X.

(** The overridable methods of a reporter class. *)
Record Methods (X : Type) : Type := mkMethods {
  beforePrintCompilerVersion : Reporter X -> Reporter X;
  onError : Tstyche.ReporterEvent -> Reporter X -> Outcome X;
  onNonImplementedEvent : Tstyche.ReporterEvent -> Reporter X -> Outcome X;
  onRunStart : Handler X;
  onFileStart : Handler X;
  onDescribeStart : Handler X;
  onDescribeEnd : Handler X;
  onTestPass : Handler X;
  onTestFail : Handler X;
  onRunEnd : Handler X
}.

Arguments beforePrintCompilerVersion {X}.
Arguments onError {X}.
Arguments onNonImplementedEvent {X}.
Arguments onRunStart {X}.
Arguments onFileStart {X}.
Arguments onDescribeStart {X}.
Arguments onDescribeEnd {X}.
Arguments onTestPass {X}.
Arguments onTestFail {X}.
Arguments onRunEnd {X}.

(* ================================================================= *)
(** ** Event kinds and the [switch] of [on] *)

(** [TstycheErrorEvents]: the first group of [case] labels. *)
Definition errorKinds : list string :=
  [ "store:error"; "project:error"; "file:error"; "directive:error";
    "collect:error"; "test:error"; "expect:error"; "suppressed:error";
    "watch:error" ].

(** The [case] labels that have a handler of their own. *)
Definition lifecycleKinds : list string :=
  [ "run:start"; "project:uses"; "file:start"; "describe:start";
    "describe:end"; "test:pass"; "test:fail"; "run:end" ].

(** [TstycheNonImplementedEvents]: the last group of [case] labels. *)
Definition nonImplementedKinds : list string :=
  [ "store:adds"; "target:start"; "target:end"; "file:end";
    "collect:start"; "collect:node"; "collect:end"; "test:start";
    "test:skip"; "test:fixme"; "test:todo"; "expect:start"; "expect:fail";
    "expect:pass"; "expect:skip"; "expect:fixme"; "suppressed:match";
    "suppressed:ignore" ].

(** Every kind named by a [case] label of [on]. *)
Definition knownKinds : list string :=
  errorKinds ++ lifecycleKinds ++ nonImplementedKinds.

Definition isOneOf (kinds : list string) (kind : string) : bool :=
  existsb (String.eqb kind) kinds.

(** The branch of the [switch] that a kind selects. *)
Inductive Route : Type :=
| RError | RRunStart | RProjectUses | RFileStart | RDescribeStart
| RDescribeEnd | RTestPass | RTestFail | RRunEnd | RNonImplemented.

(** [switch (reporterEvent[0])]: [None] is the [default] branch. *)
Definition route (kind : string) : option Route :=
  if isOneOf errorKinds kind then Some RError
  else if String.eqb kind "run:start" then Some RRunStart
  else if String.eqb kind "project:uses" then Some RProjectUses
  else if String.eqb kind "file:start" then Some RFileStart
  else if String.eqb kind "describe:start" then Some RDescribeStart
  else if String.eqb kind "describe:end" then Some RDescribeEnd
  else if String.eqb kind "test:pass" then Some RTestPass
  else if String.eqb kind "test:fail" then Some RTestFail
  else if String.eqb kind "run:end" then Some RRunEnd
  else if isOneOf nonImplementedKinds kind then Some RNonImplemented
  else None.

(** [assertTypeIsNever] of [lib/utils.js], with its default message. *)
Definition assertTypeIsNever {X} (this : Reporter X) : Outcome X :=
  Thrown this "Expected value to not exist".

(* ================================================================= *)
(** ** [TstycheBaseReporter] *)

Module Base.

Section Methods.
Context {X : Type}.

(** [_printErrors]: one [console.error] per diagnostic, in order.
    Iterating a missing [diagnostics] member throws a [TypeError]. *)
Definition errorLine (fmt : Format) (diagnostic : Diagnostic) : string :=
  let message := _formatDiagnostic diagnostic in
  let errorLine := "Error: " ++ message in
  match MarkdownOrChalk.chalk fmt with
  | Some chalk => MarkdownOrChalk.red chalk errorLine
  | None => errorLine
  end.

Definition _printErrors (payload : Tstyche.Payload) (this : Reporter X)
  : Outcome X :=
  match Tstyche.diagnostics payload with
  | None => Thrown this "payload.diagnostics is not iterable"
  | Some diagnostics =>
      Returned
        (fold_left
           (fun this diagnostic =>
              emit (ConsoleError (errorLine (format this) diagnostic)) this)
           diagnostics this)
  end.

(** The text handed to [format.header] by [_printCompilerVersion]. *)
Definition versionText (version : option string) : string :=
  "uses TypeScript " ++ interpolate version ++ " with ./tsconfig.json".

Definition _printCompilerVersion (this : Reporter X) : Reporter X :=
  let header :=
    MarkdownOrChalk.header (format this)
      (versionText (currentCompilerVersion this)) 1 in
  emit (ConsoleLog header) this.

Definition _beforePrintCompilerVersion (this : Reporter X) : Reporter X :=
  this.

Definition _onError (reporterEvent : Tstyche.ReporterEvent)
  (this : Reporter X) : Outcome X :=
  _printErrors (snd reporterEvent) this.

Definition _onNonImplementedEvent (_reporterEvent : Tstyche.ReporterEvent)
  (this : Reporter X) : Outcome X :=
  Returned this.

Definition _onRunStart : Handler X := fun _payload this =>
  let this := set_currentCompilerVersion None this in
  let this := set_lastShownCompilerVersion None this in
  Returned this.

(** [_onProjectUses]; [self] is the class of the instance, through
    which [this._beforePrintCompilerVersion()] is resolved. *)
Definition _onProjectUses (self : Methods X) : Handler X :=
  fun payload this =>
  let this :=
    set_currentCompilerVersion (Tstyche.compilerVersion payload) this in
  if strictNotEquals (currentCompilerVersion this)
                     (lastShownCompilerVersion this)
  then
    let this := beforePrintCompilerVersion self this in
    let this := _printCompilerVersion this in
    let this :=
      set_lastShownCompilerVersion (currentCompilerVersion this) this in
    Returned this
  else Returned this.

Definition _onTestPass : Handler X := fun _payload this =>
  Thrown this "_onTestPass() must be implemented by subclass".

Definition _onTestFail : Handler X := fun _payload this =>
  Thrown this "_onTestFail() must be implemented by subclass".

Definition _onFileStart : Handler X := fun _payload this =>
  Returned this.

Definition _onDescribeStart : Handler X := fun _payload this =>
  Returned this.

Definition _onDescribeEnd : Handler X := fun _payload this =>
  Returned this.

Definition _onRunEnd : Handler X := fun _payload this =>
  Thrown this "_onRunEnd() must be implemented by subclass".

(** The methods of the base class itself. *)
Definition methods : Methods X :=
  {| beforePrintCompilerVersion := _beforePrintCompilerVersion;
     onError := _onError;
     onNonImplementedEvent := _onNonImplementedEvent;
     onRunStart := _onRunStart;
     onFileStart := _onFileStart;
     onDescribeStart := _onDescribeStart;
     onDescribeEnd := _onDescribeEnd;
     onTestPass := _onTestPass;
     onTestFail := _onTestFail;
     onRunEnd := _onRunEnd |}.

(** [on]: the dispatcher.  It is inherited unchanged; the handlers it
    calls are those of the instance's class [self]. *)
Definition on (self : Methods X) (reporterEvent : Tstyche.ReporterEvent)
  (this : Reporter X) : Outcome X :=
  match route (fst reporterEvent) with
  | Some RError => onError self reporterEvent this
  | Some RRunStart => onRunStart self (snd reporterEvent) this
  | Some RProjectUses => _onProjectUses self (snd reporterEvent) this
  | Some RFileStart => onFileStart self (snd reporterEvent) this
  | Some RDescribeStart => onDescribeStart self (snd reporterEvent) this
  | Some RDescribeEnd => onDescribeEnd self (snd reporterEvent) this
  | Some RTestPass => onTestPass self (snd reporterEvent) this
  | Some RTestFail => onTestFail self (snd reporterEvent) this
  | Some RRunEnd => onRunEnd self (snd reporterEvent) this
  | Some RNonImplemented => onNonImplementedEvent self reporterEvent this
  | None => assertTypeIsNever this
  end.

(** The constructor: both versions start out [undefined]. *)
Definition new (fmt : Format) (x : X) : Reporter X :=
  mkReporter fmt None None x [].

(** Delivering a sequence of events in order; an exception thrown by
    [on] is not caught and ends the delivery. *)
Fixpoint deliver (self : Methods X) (events : list Tstyche.ReporterEvent)
  (this : Reporter X) : Outcome X :=
  match events with
  | [] => Returned this
  | reporterEvent :: rest =>
      on self reporterEvent this >>= deliver self rest
  end.

End Methods.

End Base.

(* ================================================================= *)
(** ** [TstycheDotReporter] *)

Module Dot.

Record Fields : Type := mkFields {
  dotsOnCurrentLine : nat
}.

Definition State : Type := Reporter Fields.

Definition dots (this : State) : nat := dotsOnCurrentLine (own this).

Definition set_dotsOnCurrentLine (n : nat) (this : State) : State :=
  set_own (mkFields n) this.

Definition _onRunStart : Handler Fields := fun payload this =>
  Base._onRunStart payload this >>= fun this =>
  Returned (set_dotsOnCurrentLine 0 this).

(** [#flushDots] *)
Definition flushDots (this : State) : State :=
  if (0 <? dots this)%nat then
    let this := emit (ConsoleLog "") this in
    set_dotsOnCurrentLine 0 this
  else this.

Definition _beforePrintCompilerVersion (this : State) : State :=
  flushDots this.

(** [#writeDotChar] *)
Definition writeDotChar (char : string) (this : State) : State :=
  let this := emit (StdoutWrite char) this in
  let this := set_dotsOnCurrentLine (dots this + 1) this in
  if (80 <=? dots this)%nat then
    let this := emit (ConsoleLog "") this in
    set_dotsOnCurrentLine 0 this
  else this.

Definition _onTestPass : Handler Fields := fun _payload this =>
  Returned (writeDotChar "." this).

Definition _onTestFail : Handler Fields := fun _payload this =>
  Returned (writeDotChar "F" this).

Definition _onRunEnd : Handler Fields := fun _payload this =>
  let this := flushDots this in
  let this := emit (ConsoleLog "") this in
  let this := emit (ConsoleLog "") this in
  Returned this.

Definition _onError (reporterEvent : Tstyche.ReporterEvent) (this : State)
  : Outcome Fields :=
  let this := flushDots this in
  Base._onError reporterEvent this.

Definition methods : Methods Fields :=
  {| beforePrintCompilerVersion := _beforePrintCompilerVersion;
     onError := _onError;
     onNonImplementedEvent := Base._onNonImplementedEvent;
     onRunStart := _onRunStart;
     onFileStart := Base._onFileStart;
     onDescribeStart := Base._onDescribeStart;
     onDescribeEnd := Base._onDescribeEnd;
     onTestPass := _onTestPass;
     onTestFail := _onTestFail;
     onRunEnd := _onRunEnd |}.

Definition on := Base.on methods.
Definition deliver := Base.deliver methods.

(** The constructor. *)
Definition new (fmt : Format) : State := Base.new fmt (mkFields 0).

End Dot.

(* ================================================================= *)
(** ** [TstycheMochaReporter] *)

Module Mocha.

Record Describe : Type := mkDescribe {
  name : string
}.

Record Fields : Type := mkFields {
  currentDescribeStack : list Describe
}.

Definition State : Type := Reporter Fields.

Definition stack (this : State) : list Describe :=
  currentDescribeStack (own this).

Definition set_currentDescribeStack (s : list Describe) (this : State)
  : State :=
  set_own (mkFields s) this.

Definition _onRunStart : Handler Fields := fun payload this =>
  Base._onRunStart payload this >>= fun this =>
  Returned (set_currentDescribeStack [] this).

Definition _onFileStart : Handler Fields := fun _payload this =>
  Returned (set_currentDescribeStack [] this).

(** [#printDescribeStart] *)
Definition printDescribeStart (describe : Describe) (level : nat)
  (this : State) : State :=
  let header :=
    MarkdownOrChalk.header (format this) (name describe)
      (if (level =? 0)%nat then 2 else 3) in
  emit (ConsoleLog header) this.

(** [((payload.result || {}).describe ?? {}).name ?? 'describe'] *)
Definition describeName (payload : Tstyche.Payload) : string :=
  match Tstyche.result payload with
  | Some result =>
      match Tstyche.describe result with
      | Some describeObj =>
          match Tstyche.name describeObj with
          | Some n => n
          | None => "describe"
          end
      | None => "describe"
      end
  | None => "describe"
  end.

Definition _onDescribeStart : Handler Fields := fun payload this =>
  let describe := {| name := describeName payload |} in
  (* this.currentDescribeStack.push(describe) *)
  let this := set_currentDescribeStack (stack this ++ [describe]) this in
  let indent := length (stack this) - 1 in
  Returned (printDescribeStart describe indent this).

Definition _onDescribeEnd : Handler Fields := fun _payload this =>
  (* this.currentDescribeStack.pop() *)
  Returned (set_currentDescribeStack (removelast (stack this)) this).

(** [#printTest] *)
Definition printTest (description : string) (passed : bool) (indent : nat)
  (this : State) : State :=
  let fmt := format this in
  let mark :=
    if passed then MarkdownOrChalk.logSymbols_success fmt
    else MarkdownOrChalk.logSymbols_error fmt in
  let testLine := mark ++ " " ++ description in
  let testLine :=
    match MarkdownOrChalk.chalk fmt with
    | Some chalk =>
        if passed then MarkdownOrChalk.gray chalk testLine
        else MarkdownOrChalk.red chalk testLine
    | None => testLine
    end in
  let output :=
    match MarkdownOrChalk.chalk fmt with
    | Some _ =>
        if (0 <? indent)%nat then MarkdownOrChalk.indent fmt testLine indent
        else testLine
    | None => testLine
    end in
  emit (ConsoleLog output) this.

(** [((payload.result || {}).test ?? {}).name ?? 'test'] *)
Definition testName (payload : Tstyche.Payload) : string :=
  match Tstyche.result payload with
  | Some result =>
      match Tstyche.test result with
      | Some testObj =>
          match Tstyche.name testObj with
          | Some n => n
          | None => "test"
          end
      | None => "test"
      end
  | None => "test"
  end.

(** [#recordTest] *)
Definition recordTest (payload : Tstyche.Payload) (passed : bool)
  (this : State) : State :=
  let description := testName payload in
  let indent := length (stack this) in
  printTest description passed indent this.

Definition _onTestPass : Handler Fields := fun payload this =>
  Returned (recordTest payload true this).

Definition _onTestFail : Handler Fields := fun payload this =>
  Returned (recordTest payload false this).

Definition _onRunEnd : Handler Fields := fun _payload this =>
  Returned (emit (ConsoleLog "") this).

Definition _onError (reporterEvent : Tstyche.ReporterEvent) (this : State)
  : Outcome Fields :=
  let this := emit (ConsoleLog "") this in
  Base._onError reporterEvent this.

Definition methods : Methods Fields :=
  {| beforePrintCompilerVersion := Base._beforePrintCompilerVersion;
     onError := _onError;
     onNonImplementedEvent := Base._onNonImplementedEvent;
     onRunStart := _onRunStart;
     onFileStart := _onFileStart;
     onDescribeStart := _onDescribeStart;
     onDescribeEnd := _onDescribeEnd;
     onTestPass := _onTestPass;
     onTestFail := _onTestFail;
     onRunEnd := _onRunEnd |}.

Definition on := Base.on methods.
Definition deliver := Base.deliver methods.

(** The constructor. *)
Definition new (fmt : Format) : State := Base.new fmt (mkFields []).

End Mocha.

(* ================================================================= *)
(** ** Observations on the output *)

(** The chunks written with [process.stdout.write], in order: the marks
    of the dot reporter. *)
Fixpoint marks (out : list OutItem) : list string :=
  match out with
  | [] => []
  | StdoutWrite chunk :: rest => chunk :: marks rest
  | _ :: rest => marks rest
  end.

(** The text that reaches standard output: [console.log] ends its line. *)
Fixpoint stdoutText (out : list OutItem) : string :=
  match out with
  | [] => ""
  | StdoutWrite chunk :: rest => chunk ++ stdoutText rest
  | ConsoleLog line :: rest => line ++ nl ++ stdoutText rest
  | ConsoleError _ :: rest => stdoutText rest
  end.

(** Characters on the unterminated last line of standard output after
    [out], when [col] characters were there before. *)
Fixpoint columnAfter (col : nat) (out : list OutItem) : nat :=
  match out with
  | [] => col
  | StdoutWrite chunk :: rest => columnAfter (col + String.length chunk) rest
  | ConsoleLog _ :: rest => columnAfter 0 rest
  | ConsoleError _ :: rest => columnAfter col rest
  end.

(** Output that is not part of the dot line: an error line, or a logged
    line with text (a bare [console.log('')] only ends the line). *)
Definition outOfBand (item : OutItem) : bool :=
  match item with
  | StdoutWrite _ => false
  | ConsoleLog line => negb (String.eqb line "")
  | ConsoleError _ => true
  end.

(** No out-of-band item of [out] is emitted while marks are pending on the
    current line; [col] marks are pending before [out]. *)
Fixpoint outOfBandAtLineStart (col : nat) (out : list OutItem) : bool :=
  match out with
  | [] => true
  | item :: rest =>
      (if outOfBand item then (col =? 0)%nat else true)
      && outOfBandAtLineStart (columnAfter col [item]) rest
  end.

(** Every [run:start] of [events] is delivered while the column count of
    the dot reporter is 0. *)
Fixpoint runStartsOnClosedLine (events : list Tstyche.ReporterEvent)
  (this : Dot.State) : bool :=
  match events with
  | [] => true
  | reporterEvent :: rest =>
      (match route (fst reporterEvent) with
       | Some RRunStart => (Dot.dots this =? 0)%nat
       | _ => true
       end)
      && match Dot.on reporterEvent this with
         | Returned this' => runStartsOnClosedLine rest this'
         | Thrown _ _ => true
         end
  end.

(** The [console.error] calls of [_printErrors], one per diagnostic. *)
Definition errorItems (fmt : Format) (diagnostics : list Diagnostic)
  : list OutItem :=
  map (fun diagnostic => ConsoleError (Base.errorLine fmt diagnostic))
      diagnostics.

(** The two version fields of a reporter. *)
Definition versions {X} (this : Reporter X) : option string * option string :=
  (currentCompilerVersion this, lastShownCompilerVersion this).

(** A hook that leaves the formatter and the version fields alone. *)
Definition hookKeepsVersions {X} (hook : Reporter X -> Reporter X) : Prop :=
  forall this,
    format (hook this) = format this /\ versions (hook this) = versions this.

(** What [#flushDots] emits: the terminator of a pending dot line. *)
Definition flushItems (this : Dot.State) : list OutItem :=
  if (0 <? Dot.dots this)%nat then [ConsoleLog ""] else [].

(** The mark that the dot reporter is to write for an event of [kind]. *)
Definition markOf (kind : string) : list string :=
  match route kind with
  | Some RTestPass => ["."]
  | Some RTestFail => ["F"]
  | _ => []
  end.

(** The events on which [on] throws: a kind without [case] label, or an
    error event without [diagnostics]. *)
Definition haltsOn (reporterEvent : Tstyche.ReporterEvent) : bool :=
  match route (fst reporterEvent) with
  | None => true
  | Some RError =>
      match Tstyche.diagnostics (snd reporterEvent) with
      | Some _ => false
      | None => true
      end
  | _ => false
  end.

(** The marks of a sequence of events, up to the first event on which
    [on] throws. *)
Fixpoint expectedMarks (events : list Tstyche.ReporterEvent) : list string :=
  match events with
  | [] => []
  | reporterEvent :: rest =>
      markOf (fst reporterEvent)
      ++ (if haltsOn reporterEvent then [] else expectedMarks rest)
  end.

(** The column count of the dot reporter agrees with the output: it is
    the number of marks pending on the current line, and so far nothing
    out-of-band was emitted behind pending marks. *)
Definition lineTracked (this : Dot.State) : Prop :=
  Dot.dots this = columnAfter 0 (console this)
  /\ outOfBandAtLineStart 0 (console this) = true.

(** The [console.log] call of [_printCompilerVersion] for [version]. *)
Definition versionHeader (fmt : Format) (version : option string) : OutItem :=
  ConsoleLog (MarkdownOrChalk.header fmt (Base.versionText version) 1).

(** The describe-stack depth that a sequence of event kinds leads to, from
    depth [depth]: reset by [run:start] and [file:start], one more after
    [describe:start], one less (not below 0) after [describe:end]. *)
Fixpoint scopeDepth (depth : nat) (kinds : list string) : nat :=
  match kinds with
  | [] => depth
  | kind :: rest =>
      match route kind with
      | Some RRunStart | Some RFileStart => scopeDepth 0 rest
      | Some RDescribeStart => scopeDepth (depth + 1) rest
      | Some RDescribeEnd => scopeDepth (depth - 1) rest
      | _ => scopeDepth depth rest
      end
  end.

(** Payloads as tstyche types them: an error event carries
    [diagnostics], a [project:uses] event carries [compilerVersion]. *)
Definition wellFormed (kind : string) (payload : Tstyche.Payload) : bool :=
  match route kind with
  | Some RError =>
      match Tstyche.diagnostics payload with Some _ => true | None => false end
  | Some RProjectUses =>
      match Tstyche.compilerVersion payload with
      | Some _ => true
      | None => false
      end
  | _ => true
  end.

(* ================================================================= *)
(** ** Sample events and formatters *)

Definition emptyPayload : Tstyche.Payload :=
  Tstyche.mkPayload None None None.

Definition usesPayload (version : string) : Tstyche.Payload :=
  Tstyche.mkPayload None (Some version) None.

Definition errorPayload (diagnostics : list Diagnostic) : Tstyche.Payload :=
  Tstyche.mkPayload (Some diagnostics) None None.

Definition describePayload (n : string) : Tstyche.Payload :=
  Tstyche.mkPayload None None
    (Some (Tstyche.mkResult (Some (Tstyche.mkNamed (Some n))) None)).

Definition testPayload (n : string) : Tstyche.Payload :=
  Tstyche.mkPayload None None
    (Some (Tstyche.mkResult None (Some (Tstyche.mkNamed (Some n))))).

Definition projectUses (version : string) : Tstyche.ReporterEvent :=
  ("project:uses", usesPayload version).

Fixpoint hashes (level : nat) : string :=
  match level with
  | 0 => ""
  | S n => "#" ++ hashes n
  end.

Fixpoint spaces (depth : nat) : string :=
  match depth with
  | 0 => ""
  | S n => "  " ++ spaces n
  end.

(** A formatter without colorizer, standing for markdown mode; a heading
    is set off by a newline before and after it. *)
Definition markdownFormat : Format :=
  MarkdownOrChalk.mkFormat
    (fun text level => nl ++ hashes level ++ " " ++ text ++ nl)
    (fun text depth => spaces depth ++ text)
    ":white_check_mark:" ":stop_sign:" None.

(** A formatter with colorizer, standing for CLI mode. *)
Definition cliFormat : Format :=
  MarkdownOrChalk.mkFormat
    (fun text level => "[bold]" ++ text)
    (fun text depth => spaces depth ++ text)
    "v" "x"
    (Some (MarkdownOrChalk.mkChalk
             (fun text => "[red]" ++ text)
             (fun text => "[gray]" ++ text))).

(** The two diagnostics of the reference examples. *)
Definition badType : Diagnostic :=
  mkDiagnostic (TextLine "bad type") (Some "E1") None None.

Definition badTypeWithContext : Diagnostic :=
  mkDiagnostic (TextLine "bad type") (Some "E1") None
    (Some [mkDiagnostic (TextLine "context") None None None]).

(** A diagnostic with a category and one related entry. *)
Definition categorizedWithContext : Diagnostic :=
  mkDiagnostic (TextLine "bad type") None (Some "error")
    (Some [mkDiagnostic (TextLine "context") None None None]).

(* ================================================================= *)
(** ** Further observations *)

(** Number of newline characters in a string. *)
Fixpoint countNl (s : string) : nat :=
  match s with
  | EmptyString => 0
  | String a rest =>
      (if Ascii.eqb a (ascii_of_nat 10) then 1 else 0) + countNl rest
  end.

Definition oneLine (s : string) : bool := (countNl s =? 0)%nat.

Definition oneLineOpt (v : option string) : bool :=
  match v with
  | Some s => oneLine s
  | None => true
  end.

(** Number of text lines in a diagnostic and all its related entries. *)
Fixpoint textLineTotal (d : Diagnostic) : nat :=
  match d with
  | mkDiagnostic t _ _ rel =>
      length (textLines t)
      + match rel with
        | Some entries => list_sum (map textLineTotal entries)
        | None => 0
        end
  end.

(** A diagnostic, with all its related entries, has at least one text
    line, and no text line, code or category contains a newline. *)
Fixpoint singleLined (d : Diagnostic) : bool :=
  match d with
  | mkDiagnostic t c cat rel =>
      negb (Nat.eqb (length (textLines t)) 0)
      && forallb oneLine (textLines t)
      && oneLineOpt c && oneLineOpt cat
      && match rel with
         | Some entries => forallb singleLined entries
         | None => true
         end
  end.

(** Induction on a diagnostic with the related entries as premises. *)
Fixpoint Diagnostic_related_ind (P : Diagnostic -> Prop)
  (step : forall t c cat rel,
      match rel with Some entries => Forall P entries | None => True end ->
      P (mkDiagnostic t c cat rel))
  (d : Diagnostic) {struct d} : P d :=
  match d with
  | mkDiagnostic t c cat rel =>
      step t c cat rel
        (match rel
               return match rel with
                      | Some entries => Forall P entries
                      | None => True
                      end
         with
         | Some entries =>
             (fix all (l : list Diagnostic) : Forall P l :=
                match l with
                | [] => Forall_nil P
                | x :: rest =>
                    Forall_cons x (Diagnostic_related_ind P step x) (all rest)
                end) entries
         | None => I
         end)
  end.

(** The marks pending on a line of standard output never exceed [limit]
    while [out] is emitted; [col] marks are pending before [out]. *)
Fixpoint widthWithin (limit col : nat) (out : list OutItem) : bool :=
  match out with
  | [] => true
  | item :: rest =>
      (columnAfter col [item] <=? limit)%nat
      && widthWithin limit (columnAfter col [item]) rest
  end.

(** Every [run:start] of [events] comes directly after a [run:end];
    [afterEnd] says whether the event before [events] was one (or whether
    there was none). *)
Fixpoint startsFollowEnds (afterEnd : bool)
  (events : list Tstyche.ReporterEvent) : bool :=
  match events with
  | [] => true
  | reporterEvent :: rest =>
      (match route (fst reporterEvent) with
       | Some RRunStart => afterEnd
       | _ => true
       end)
      && startsFollowEnds
           (match route (fst reporterEvent) with
            | Some RRunEnd => true
            | _ => false
            end)
           rest
  end.

(** The events of a run are all [test:pass] or [test:fail]. *)
Definition isTestEvent (reporterEvent : Tstyche.ReporterEvent) : bool :=
  match route (fst reporterEvent) with
  | Some RTestPass | Some RTestFail => true
  | _ => false
  end.

(** The kinds whose handler the base class leaves to the subclass. *)
Definition abstractKinds : list string :=
  [ "test:pass"; "test:fail"; "run:end" ].

(** The base class used on its own, without subclass fields. *)
Definition baseOn : Tstyche.ReporterEvent -> Reporter unit -> Outcome unit :=
  Base.on Base.methods.

(* ================================================================= *)
(** * Properties *)

(* ================================================================= *)
(** ** Strings *)

Lemma append_empty_r (s : string) : s ++ "" = s.
Proof.
  induction s as [|a s IH]; simpl; [reflexivity | now rewrite IH].
Qed.

Lemma append_assoc (a b c : string) : (a ++ b) ++ c = a ++ (b ++ c).
Proof.
  induction a as [|x a IH]; simpl; [reflexivity | now rewrite IH].
Qed.

Lemma length_append (a b : string) :
  String.length (a ++ b) = String.length a + String.length b.
Proof.
  induction a as [|x a IH]; simpl; [reflexivity | now rewrite IH].
Qed.

Lemma substring_whole (s : string) : substring 0 (String.length s) s = s.
Proof.
  induction s as [|a s IH]; simpl; [reflexivity | now rewrite IH].
Qed.

Lemma substring_skip (pre s : string) (n : nat) :
  substring (String.length pre) n (pre ++ s) = substring 0 n s.
Proof.
  induction pre as [|a pre IH]; simpl; [reflexivity | exact IH].
Qed.

(** A string ends with whatever was appended last. *)
Lemma endsWith_append (pre suffix : string) :
  endsWith (pre ++ suffix) suffix = true.
Proof.
  unfold endsWith.
  rewrite length_append.
  replace (String.length pre + String.length suffix - String.length suffix)
    with (String.length pre) by lia.
  rewrite substring_skip, substring_whole, String.eqb_refl.
  rewrite andb_true_r.
  apply Nat.leb_le; lia.
Qed.

Lemma map_append_empty (lines : list string) :
  map (fun line => line ++ "") lines = lines.
Proof.
  induction lines as [|l lines IH]; simpl; [reflexivity|].
  now rewrite append_empty_r, IH.
Qed.

Lemma truthy_Some (s : string) : s <> "" -> truthy (Some s) = true.
Proof.
  intros Hs; unfold truthy.
  destruct (String.eqb_spec s ""); [contradiction | reflexivity].
Qed.

(* ================================================================= *)
(** ** The diagnostic formatter *)

(** The formatter as one equation: the text lines joined, the code on the
    first of them, then the category, then the related entries. *)
Lemma formatDiagnostic_unfold (d : Diagnostic) :
  _formatDiagnostic d =
  primaryText d ++
  match related d with
  | Some (r :: rs) =>
      nl ++ join nl (map (fun entry => "  " ++ _formatDiagnostic entry)
                         (r :: rs))
  | _ => ""
  end.
Proof.
  destruct d as [t c cat [[|r rs]|]]; unfold primaryText; simpl;
    rewrite ?append_empty_r, ?append_assoc; reflexivity.
Qed.

Lemma withCodeInline_cons (codeText first : string) (rest : list string) :
  withCodeInline codeText (first :: rest) = (first ++ codeText) :: rest.
Proof.
  unfold withCodeInline; now rewrite map_append_empty.
Qed.

(** C6: [{text: "bad type", code: "E1"}] formats to ["bad type (E1)"], and
    with the related entry [{text: "context"}] to ["bad type (E1)"], a
    newline, two spaces and ["context"].  In general the code suffix goes
    on the first line only, and the related entries follow on their own
    lines, in order, each formatted recursively behind two spaces. *)
Theorem formatDiagnostic_reference :
  _formatDiagnostic badType = "bad type (E1)"
  /\ _formatDiagnostic badTypeWithContext
     = "bad type (E1)" ++ nl ++ "  context"
  /\ (forall first rest c cat r rs,
        _formatDiagnostic
          (mkDiagnostic (TextLines (first :: rest)) c cat (Some (r :: rs)))
        = join nl ((first ++ codeSuffix c) :: rest) ++ categorySuffix cat
          ++ nl
          ++ join nl (map (fun entry => "  " ++ _formatDiagnostic entry)
                          (r :: rs))).
Proof.
  split; [reflexivity|].
  split; [reflexivity|].
  intros first rest c cat r rs.
  rewrite formatDiagnostic_unfold.
  unfold primaryText; cbn [text code category related textLines].
  rewrite withCodeInline_cons, append_assoc.
  reflexivity.
Qed.

(** C7, as stated, fails: with a related entry the category suffix is
    followed by the related lines. *)
Lemma category_suffix_before_related :
  category categorizedWithContext = Some "error"
  /\ _formatDiagnostic categorizedWithContext
     = "bad type [error]" ++ nl ++ "  context"
  /\ endsWith (_formatDiagnostic categorizedWithContext) " [error]" = false.
Proof.
  repeat split; reflexivity.
Qed.

(** C7, amended: for a diagnostic with a non-empty category, the suffix
    [" [category]"] comes directly after the joined text lines; it ends
    the formatted output when there are no related entries, and is
    followed by the related lines otherwise. *)
Theorem category_suffix_ends_primary_text (d : Diagnostic) (c : string) :
  category d = Some c ->
  c <> "" ->
  primaryText d
  = join nl (withCodeInline (codeSuffix (code d)) (textLines (text d)))
    ++ " [" ++ c ++ "]"
  /\ (related d = None \/ related d = Some [] ->
      _formatDiagnostic d = primaryText d
      /\ endsWith (_formatDiagnostic d) (" [" ++ c ++ "]") = true)
  /\ (forall r rs, related d = Some (r :: rs) ->
      _formatDiagnostic d
      = primaryText d ++ nl
        ++ join nl (map (fun entry => "  " ++ _formatDiagnostic entry)
                        (r :: rs))).
Proof.
  intros Hcat Hc.
  assert (Hprimary :
    primaryText d
    = join nl (withCodeInline (codeSuffix (code d)) (textLines (text d)))
      ++ " [" ++ c ++ "]").
  { unfold primaryText, categorySuffix.
    rewrite Hcat, (truthy_Some c Hc). reflexivity. }
  split; [exact Hprimary|].
  split.
  - intros Hrel.
    assert (Hfmt : _formatDiagnostic d = primaryText d).
    { rewrite formatDiagnostic_unfold.
      destruct Hrel as [-> | ->]; apply append_empty_r. }
    split; [exact Hfmt|].
    rewrite Hfmt, Hprimary.
    apply endsWith_append.
  - intros r rs Hrel.
    rewrite formatDiagnostic_unfold, Hrel. reflexivity.
Qed.

Lemma category_suffix_ends_primary_text_witness :
  category (mkDiagnostic (TextLines ["a"; "b"]) (Some "E1") (Some "error") None)
  = Some "error"
  /\ "error" <> ""
  /\ endsWith
       (_formatDiagnostic
          (mkDiagnostic (TextLines ["a"; "b"]) (Some "E1") (Some "error") None))
       " [error]" = true.
Proof.
  split; [reflexivity|].
  split; [discriminate|].
  apply (category_suffix_ends_primary_text
           (mkDiagnostic (TextLines ["a"; "b"]) (Some "E1") (Some "error") None)
           "error"); [reflexivity | discriminate | left; reflexivity].
Defined.

(* ================================================================= *)
(** ** Delivery of event sequences *)

Open Scope list_scope.

Lemma deliver_app {X} (self : Methods X)
  (first second : list Tstyche.ReporterEvent) (this : Reporter X) :
  Base.deliver self (first ++ second) this
  = Base.deliver self first this >>= Base.deliver self second.
Proof.
  revert this.
  induction first as [|e first IH]; intros this; simpl; [reflexivity|].
  destruct (Base.on self e this) as [this'|this' message]; simpl;
    [apply IH | reflexivity].
Qed.

(* ================================================================= *)
(** ** Output observations *)

Lemma columnAfter_app (col : nat) (first second : list OutItem) :
  columnAfter col (first ++ second)
  = columnAfter (columnAfter col first) second.
Proof.
  revert col.
  induction first as [|[chunk|line|line] first IH]; intros col; simpl;
    [reflexivity | apply IH ..].
Qed.

Lemma marks_app (first second : list OutItem) :
  marks (first ++ second) = marks first ++ marks second.
Proof.
  induction first as [|[chunk|line|line] first IH]; simpl;
    [reflexivity | now rewrite IH | exact IH ..].
Qed.

Lemma outOfBandAtLineStart_app (col : nat) (first second : list OutItem) :
  outOfBandAtLineStart col (first ++ second)
  = outOfBandAtLineStart col first
    && outOfBandAtLineStart (columnAfter col first) second.
Proof.
  revert col.
  induction first as [|item first IH]; intros col; [reflexivity|].
  cbn [app outOfBandAtLineStart].
  rewrite IH, <- andb_assoc.
  change (item :: first) with ([item] ++ first).
  rewrite (columnAfter_app col [item] first).
  reflexivity.
Qed.

(* ================================================================= *)
(** ** The dot buffer *)

(** C8: [#flushDots] with column count 0 changes nothing and emits
    nothing; with a column count above 0 it emits one line terminator and
    resets the count to 0. *)
Theorem flushDots_spec (this : Dot.State) :
  (Dot.dots this = 0 ->
   Dot.flushDots this = this
   /\ console (Dot.flushDots this) = console this
   /\ Dot.dots (Dot.flushDots this) = 0)
  /\ (0 < Dot.dots this ->
      console (Dot.flushDots this) = console this ++ [ConsoleLog ""]
      /\ Dot.dots (Dot.flushDots this) = 0).
Proof.
  unfold Dot.flushDots.
  split; intros Hdots.
  - rewrite Hdots; simpl. repeat split; assumption.
  - destruct (Nat.ltb_spec 0 (Dot.dots this)) as [_|Hle]; [|lia].
    split; reflexivity.
Qed.

Lemma flushDots_spec_witness :
  (Dot.dots (Dot.new markdownFormat) = 0
   /\ console (Dot.flushDots (Dot.new markdownFormat)) = [])
  /\ (0 < Dot.dots (Dot.writeDotChar "." (Dot.new markdownFormat))
      /\ console (Dot.flushDots (Dot.writeDotChar "." (Dot.new markdownFormat)))
         = [StdoutWrite "."; ConsoleLog ""]).
Proof.
  split.
  - split; [reflexivity|].
    apply (flushDots_spec (Dot.new markdownFormat)). reflexivity.
  - split; [vm_compute; lia|].
    apply (flushDots_spec (Dot.writeDotChar "." (Dot.new markdownFormat))).
    vm_compute; lia.
Defined.

(** [#flushDots] always leaves the column count at 0. *)
Lemma flushDots_dots (this : Dot.State) : Dot.dots (Dot.flushDots this) = 0.
Proof.
  unfold Dot.flushDots.
  destruct (Nat.ltb_spec 0 (Dot.dots this)) as [Hlt|Hle]; [reflexivity | lia].
Qed.

Lemma flushDots_versions (this : Dot.State) :
  currentCompilerVersion (Dot.flushDots this) = currentCompilerVersion this
  /\ lastShownCompilerVersion (Dot.flushDots this)
     = lastShownCompilerVersion this
  /\ format (Dot.flushDots this) = format this.
Proof.
  unfold Dot.flushDots.
  destruct (0 <? Dot.dots this)%nat; repeat split.
Qed.

(** One write below the wrap column: the mark only. *)
Lemma writeDotChar_below (char : string) (this : Dot.State) :
  Dot.dots this + 1 < 80 ->
  console (Dot.writeDotChar char this) = console this ++ [StdoutWrite char]
  /\ Dot.dots (Dot.writeDotChar char this) = Dot.dots this + 1.
Proof.
  intros Hlt. unfold Dot.writeDotChar.
  cbv zeta.
  change (Dot.dots (Dot.set_dotsOnCurrentLine
                      (Dot.dots (emit (StdoutWrite char) this) + 1)
                      (emit (StdoutWrite char) this)))
    with (Dot.dots this + 1).
  destruct (Nat.leb_spec 80 (Dot.dots this + 1)) as [Hge|_]; [lia|].
  split; reflexivity.
Qed.

(** One write that reaches the wrap column: the mark, then the line
    terminator, and the count starts over. *)
Lemma writeDotChar_wrap (char : string) (this : Dot.State) :
  80 <= Dot.dots this + 1 ->
  console (Dot.writeDotChar char this)
  = console this ++ [StdoutWrite char; ConsoleLog ""]
  /\ Dot.dots (Dot.writeDotChar char this) = 0.
Proof.
  intros Hge. unfold Dot.writeDotChar.
  cbv zeta.
  change (Dot.dots (Dot.set_dotsOnCurrentLine
                      (Dot.dots (emit (StdoutWrite char) this) + 1)
                      (emit (StdoutWrite char) this)))
    with (Dot.dots this + 1).
  destruct (Nat.leb_spec 80 (Dot.dots this + 1)) as [_|Hlt]; [|lia].
  split; [|reflexivity].
  simpl. rewrite <- app_assoc. reflexivity.
Qed.

Lemma writeDotChar_versions (char : string) (this : Dot.State) :
  currentCompilerVersion (Dot.writeDotChar char this)
  = currentCompilerVersion this
  /\ lastShownCompilerVersion (Dot.writeDotChar char this)
     = lastShownCompilerVersion this
  /\ format (Dot.writeDotChar char this) = format this.
Proof.
  unfold Dot.writeDotChar. cbv zeta.
  match goal with |- context [if ?b then _ else _] => destruct b end;
    repeat split.
Qed.

(** [k] passing tests that stay below the wrap column add [k] marks. *)
Lemma passes_below_wrap (payload : Tstyche.Payload) (k : nat) :
  forall this : Dot.State,
    Dot.dots this + k < 80 ->
    exists this',
      Dot.deliver (repeat ("test:pass", payload) k) this = Returned this'
      /\ console this' = console this ++ repeat (StdoutWrite ".") k
      /\ Dot.dots this' = Dot.dots this + k.
Proof.
  induction k as [|k IH]; intros this Hlt.
  - exists this. simpl. rewrite app_nil_r, Nat.add_0_r. repeat split.
  - destruct (writeDotChar_below "." this) as [Hout Hdots]; [lia|].
    destruct (IH (Dot.writeDotChar "." this)) as (this' & Hrun & Hout' & Hdots');
      [lia|].
    exists this'. split; [exact Hrun|].
    rewrite Hout', Hdots', Hout, Hdots. split; [|lia].
    rewrite <- app_assoc. reflexivity.
Qed.

(** C3: every write emits its mark without a terminator and adds one to
    the column count; the line is terminated and the count reset to 0
    exactly when the count reaches 80.  From column 0, 80 passing tests
    give one line of 80 marks and its terminator, the count is 0 again,
    and the 81st mark starts the next line. *)
Theorem writeDotChar_wraps_at_80 :
  (forall char this,
      (Dot.dots this + 1 < 80 ->
       console (Dot.writeDotChar char this)
       = console this ++ [StdoutWrite char]
       /\ Dot.dots (Dot.writeDotChar char this) = Dot.dots this + 1)
      /\ (80 <= Dot.dots this + 1 ->
          console (Dot.writeDotChar char this)
          = console this ++ [StdoutWrite char; ConsoleLog ""]
          /\ Dot.dots (Dot.writeDotChar char this) = 0))
  /\ (forall payload (this : Dot.State),
         Dot.dots this = 0 ->
         exists line next,
           Dot.deliver (repeat ("test:pass", payload) 80) this = Returned line
           /\ console line
              = console this ++ repeat (StdoutWrite ".") 80 ++ [ConsoleLog ""]
           /\ Dot.dots line = 0
           /\ Dot.on ("test:pass", payload) line = Returned next
           /\ console next = console line ++ [StdoutWrite "."]
           /\ Dot.dots next = 1
           /\ columnAfter 0 (console next) = 1).
Proof.
  split.
  - intros char this. split.
    + apply writeDotChar_below.
    + apply writeDotChar_wrap.
  - intros payload this Hzero.
    destruct (passes_below_wrap payload 79 this)
      as (this79 & Hrun & Hout & Hdots); [lia|].
    destruct (writeDotChar_wrap "." this79) as [Hout80 Hdots80]; [lia|].
    destruct (writeDotChar_below "." (Dot.writeDotChar "." this79))
      as [Hout81 Hdots81]; [lia|].
    exists (Dot.writeDotChar "." this79).
    exists (Dot.writeDotChar "." (Dot.writeDotChar "." this79)).
    split.
    { change (repeat ("test:pass", payload) 80)
        with (repeat ("test:pass", payload) (79 + 1)).
      rewrite repeat_app. unfold Dot.deliver in *.
      rewrite deliver_app, Hrun. reflexivity. }
    split.
    { rewrite Hout80, Hout.
      change (repeat (StdoutWrite ".") 80)
        with (repeat (StdoutWrite ".") (79 + 1)).
      rewrite repeat_app, <- !app_assoc. reflexivity. }
    split; [exact Hdots80|].
    split; [reflexivity|].
    split; [exact Hout81|].
    split; [lia|].
    rewrite Hout81, Hout80.
    rewrite !columnAfter_app. reflexivity.
Qed.

Lemma writeDotChar_wraps_at_80_witness :
  (Dot.dots (Dot.new cliFormat) + 1 < 80
   /\ console (Dot.writeDotChar "F" (Dot.new cliFormat)) = [StdoutWrite "F"])
  /\ (Dot.dots (Dot.new cliFormat) = 0
      /\ exists line next,
          Dot.deliver (repeat ("test:pass", emptyPayload) 80)
            (Dot.new cliFormat) = Returned line
          /\ console line = repeat (StdoutWrite ".") 80 ++ [ConsoleLog ""]
          /\ Dot.on ("test:pass", emptyPayload) line = Returned next
          /\ Dot.dots next = 1).
Proof.
  destruct writeDotChar_wraps_at_80 as [Hwrite Hline].
  split.
  - split; [vm_compute; lia|].
    apply (Hwrite "F" (Dot.new cliFormat)). vm_compute; lia.
  - split; [reflexivity|].
    destruct (Hline emptyPayload (Dot.new cliFormat) eq_refl)
      as (line & next & Hrun & Hout & _ & Hon & _ & Hdots & _).
    exists line, next. repeat split; assumption.
Defined.

(* ================================================================= *)
(** ** The switch of [on] *)

(** Walk through the [case] labels that [kind] is compared with: [hit]
    closes the goal in which [kind] is the label, the goal in which it is
    none of them remains. *)
Ltac each_label kind hit :=
  repeat (match goal with
          | |- context [String.eqb kind ?label] =>
              destruct (String.eqb kind label)
          end;
          cbn [orb]; [hit|]).

Lemma isOneOf_In (kinds : list string) (kind : string) :
  isOneOf kinds kind = true <-> In kind kinds.
Proof.
  unfold isOneOf. rewrite existsb_exists. split.
  - intros (k & Hin & Heq). apply String.eqb_eq in Heq. now subst.
  - intros Hin. exists kind. split; [exact Hin | apply String.eqb_refl].
Qed.

(** The [default] branch is taken exactly for the kinds no [case] names. *)
Lemma route_None_isOneOf (kind : string) :
  route kind = None <-> isOneOf knownKinds kind = false.
Proof.
  unfold route, isOneOf, knownKinds, errorKinds, lifecycleKinds,
    nonImplementedKinds.
  cbn [existsb app].
  each_label kind ltac:(split; discriminate).
  split; reflexivity.
Qed.

Lemma route_None_iff (kind : string) :
  route kind = None <-> ~ In kind knownKinds.
Proof.
  rewrite route_None_isOneOf, <- isOneOf_In.
  destruct (isOneOf knownKinds kind); split; congruence.
Qed.

Lemma route_RunStart (kind : string) :
  route kind = Some RRunStart <-> kind = "run:start".
Proof.
  split.
  - unfold route, isOneOf, errorKinds, nonImplementedKinds.
    cbn [existsb].
    destruct (String.eqb_spec kind "run:start") as [->|_]; [reflexivity|].
    each_label kind ltac:(discriminate).
    discriminate.
  - intros ->. reflexivity.
Qed.

Lemma route_ProjectUses (kind : string) :
  route kind = Some RProjectUses <-> kind = "project:uses".
Proof.
  split.
  - unfold route, isOneOf, errorKinds, nonImplementedKinds.
    cbn [existsb].
    destruct (String.eqb_spec kind "project:uses") as [->|_]; [reflexivity|].
    each_label kind ltac:(discriminate).
    discriminate.
  - intros ->. reflexivity.
Qed.

(* ================================================================= *)
(** ** Error printing *)


Lemma printErrors_fold {X} (diagnostics : list Diagnostic) :
  forall this : Reporter X,
    fold_left
      (fun this diagnostic =>
         emit (ConsoleError (Base.errorLine (format this) diagnostic)) this)
      diagnostics this
    = mkReporter (format this) (currentCompilerVersion this)
        (lastShownCompilerVersion this) (own this)
        (console this ++ errorItems (format this) diagnostics).
Proof.
  induction diagnostics as [|d diagnostics IH]; intros this.
  - destruct this; simpl. now rewrite app_nil_r.
  - cbn [fold_left]. rewrite IH. unfold emit; simpl.
    rewrite <- app_assoc. reflexivity.
Qed.

(** [_printErrors] on a payload that carries diagnostics. *)
Lemma printErrors_Some {X} (payload : Tstyche.Payload)
  (diagnostics : list Diagnostic) (this : Reporter X) :
  Tstyche.diagnostics payload = Some diagnostics ->
  Base._printErrors payload this
  = Returned
      (mkReporter (format this) (currentCompilerVersion this)
         (lastShownCompilerVersion this) (own this)
         (console this ++ errorItems (format this) diagnostics)).
Proof.
  intros Hd. unfold Base._printErrors. rewrite Hd, printErrors_fold.
  reflexivity.
Qed.

(** [_printErrors] changes nothing but the output, whether it throws or
    not, and throws exactly when the payload has no diagnostics. *)
Lemma printErrors_frame {X} (payload : Tstyche.Payload) (this : Reporter X) :
  let after := reporterOf (Base._printErrors payload this) in
  format after = format this
  /\ versions after = versions this
  /\ own after = own this
  /\ marks (console after) = marks (console this).
Proof.
  unfold Base._printErrors.
  destruct (Tstyche.diagnostics payload) as [ds|]; cbn [reporterOf].
  - rewrite printErrors_fold. unfold versions; cbn.
    repeat split. rewrite marks_app.
    assert (Hnone : marks (errorItems (format this) ds) = []).
    { induction ds as [|d ds IH]; [reflexivity | exact IH]. }
    rewrite Hnone. apply app_nil_r.
  - repeat split.
Qed.

(* ================================================================= *)
(** ** The version header *)

(** [_onProjectUses] never throws. *)
Lemma onProjectUses_returns {X} (self : Methods X)
  (payload : Tstyche.Payload) (this : Reporter X) :
  throws (Base._onProjectUses self payload this) = false.
Proof.
  unfold Base._onProjectUses. cbv zeta.
  destruct (strictNotEquals _ _); reflexivity.
Qed.

(** [_onProjectUses] for a class whose pre-print hook leaves the versions
    alone: the header follows whatever the hook emitted. *)
Lemma onProjectUses_spec {X} (self : Methods X)
  (payload : Tstyche.Payload) (this : Reporter X) :
  hookKeepsVersions (beforePrintCompilerVersion self) ->
  let version := Tstyche.compilerVersion payload in
  let this1 := set_currentCompilerVersion version this in
  Base._onProjectUses self payload this
  = Returned
      (if strictNotEquals version (lastShownCompilerVersion this)
       then
         mkReporter (format this) version version
           (own (beforePrintCompilerVersion self this1))
           (console (beforePrintCompilerVersion self this1)
            ++ [versionHeader (format this) version])
       else this1).
Proof.
  intros Hhook version this1.
  unfold Base._onProjectUses. cbv zeta. fold version. fold this1.
  change (currentCompilerVersion this1) with version.
  change (lastShownCompilerVersion this1) with (lastShownCompilerVersion this).
  destruct (strictNotEquals version (lastShownCompilerVersion this));
    [|reflexivity].
  destruct (Hhook this1) as [Hfmt Hver].
  unfold versions in Hver. injection Hver as Hcur Hlast.
  unfold Base._printCompilerVersion, set_lastShownCompilerVersion, emit,
    versionHeader; cbn.
  rewrite Hfmt, Hcur. reflexivity.
Qed.

Lemma flushDots_keeps_versions :
  hookKeepsVersions Dot._beforePrintCompilerVersion.
Proof.
  intros this. unfold Dot._beforePrintCompilerVersion, versions.
  destruct (flushDots_versions this) as (Hcur & Hlast & Hfmt).
  rewrite Hcur, Hlast, Hfmt. split; reflexivity.
Qed.

Lemma base_hook_keeps_versions {X} :
  hookKeepsVersions (@Base._beforePrintCompilerVersion X).
Proof.
  intros this. split; reflexivity.
Qed.

Lemma strictNotEquals_false (a b : option string) :
  strictNotEquals a b = false <-> a = b.
Proof.
  destruct a as [x|], b as [y|]; cbn; try (split; congruence).
  destruct (String.eqb_spec x y); cbn; split; congruence.
Qed.

Lemma strictNotEquals_true (a b : option string) :
  strictNotEquals a b = true <-> a <> b.
Proof.
  rewrite <- strictNotEquals_false.
  destruct (strictNotEquals a b); split; congruence.
Qed.

(* ================================================================= *)
(** ** Throwing *)

(** C2: in the dot and in the mocha reporter, [on] with a well-formed
    payload throws exactly when the kind is not one of the kinds named by
    the [case] labels; for every named kind (lifecycle, error and
    not-yet-implemented ones) it returns normally. *)
Theorem on_throws_iff_unknown_kind (kind : string)
  (payload : Tstyche.Payload) :
  wellFormed kind payload = true ->
  (forall this : Dot.State,
      throws (Dot.on (kind, payload) this) = true <-> ~ In kind knownKinds)
  /\ (forall this : Mocha.State,
         throws (Mocha.on (kind, payload) this) = true
         <-> ~ In kind knownKinds).
Proof.
  intros Hwf. unfold wellFormed in Hwf.
  split; intros this; rewrite <- route_None_iff;
    unfold Dot.on, Mocha.on, Base.on; cbn [fst snd];
    destruct (route kind) as [[]|];
    try (split; [reflexivity | reflexivity]);
    (split; [|discriminate]); cbn;
    try discriminate.
  - unfold Dot._onError, Base._onError; cbn [snd].
    destruct (Tstyche.diagnostics payload) as [ds|] eqn:Hd; [|discriminate].
    rewrite (printErrors_Some payload ds _ Hd). discriminate.
  - rewrite onProjectUses_returns. discriminate.
  - unfold Mocha._onError, Base._onError; cbn [snd].
    destruct (Tstyche.diagnostics payload) as [ds|] eqn:Hd; [|discriminate].
    rewrite (printErrors_Some payload ds _ Hd). discriminate.
  - rewrite onProjectUses_returns. discriminate.
Qed.

Lemma on_throws_iff_unknown_kind_witness :
  wellFormed "test:error" (errorPayload [badType]) = true
  /\ throws (Dot.on ("test:error", errorPayload [badType])
               (Dot.new markdownFormat)) = false
  /\ throws (Mocha.on ("test:error", errorPayload [badType])
               (Mocha.new cliFormat)) = false.
Proof.
  split; [reflexivity|].
  destruct (on_throws_iff_unknown_kind "test:error" (errorPayload [badType])
              eq_refl) as [Hdot Hmocha].
  split.
  - destruct (throws (Dot.on ("test:error", errorPayload [badType])
                        (Dot.new markdownFormat))) eqn:Hthrows;
      [|reflexivity].
    apply Hdot in Hthrows. exfalso. apply Hthrows.
    unfold knownKinds, errorKinds; simpl; tauto.
  - destruct (throws (Mocha.on ("test:error", errorPayload [badType])
                        (Mocha.new cliFormat))) eqn:Hthrows;
      [|reflexivity].
    apply Hmocha in Hthrows. exfalso. apply Hthrows.
    unfold knownKinds, errorKinds; simpl; tauto.
Defined.

(* ================================================================= *)
(** ** Who writes the version fields *)

(** Every handler of the dot reporter other than those of [run:start]
    and [project:uses] leaves the version fields as they are. *)
Lemma dot_versions_frame (kind : string) (payload : Tstyche.Payload)
  (this : Dot.State) :
  route kind <> Some RRunStart ->
  route kind <> Some RProjectUses ->
  versions (reporterOf (Dot.on (kind, payload) this)) = versions this.
Proof.
  intros Hstart Huses.
  unfold Dot.on, Base.on; cbn [fst snd].
  destruct (route kind) as [[]|]; try congruence; try reflexivity; cbn.
  - unfold Dot._onError, Base._onError; cbn [snd].
    destruct (printErrors_frame payload (Dot.flushDots this))
      as (_ & Hver & _).
    cbv zeta in Hver. rewrite Hver. unfold versions.
    destruct (flushDots_versions this) as (-> & -> & _). reflexivity.
  - unfold versions.
    destruct (writeDotChar_versions "." this) as (-> & -> & _). reflexivity.
  - unfold versions.
    destruct (writeDotChar_versions "F" this) as (-> & -> & _). reflexivity.
  - unfold versions; cbn.
    destruct (flushDots_versions this) as (-> & -> & _). reflexivity.
Qed.

Lemma mocha_versions_frame (kind : string) (payload : Tstyche.Payload)
  (this : Mocha.State) :
  route kind <> Some RRunStart ->
  route kind <> Some RProjectUses ->
  versions (reporterOf (Mocha.on (kind, payload) this)) = versions this.
Proof.
  intros Hstart Huses.
  unfold Mocha.on, Base.on; cbn [fst snd].
  destruct (route kind) as [[]|]; try congruence; try reflexivity; cbn.
  unfold Mocha._onError, Base._onError; cbn [snd].
  destruct (printErrors_frame payload (emit (ConsoleLog "") this))
    as (_ & Hver & _).
  cbv zeta in Hver. rewrite Hver. reflexivity.
Qed.

(** C9: [currentCompilerVersion] and [lastShownCompilerVersion] are
    written only on [run:start], which sets both to [undefined], and on
    [project:uses], which sets both to the version of the event; an event
    of any other kind leaves both fields unchanged, in the dot and in the
    mocha reporter. *)
Theorem versions_written_only_by_start_and_uses (kind : string)
  (payload : Tstyche.Payload) :
  (kind <> "run:start" -> kind <> "project:uses" ->
   (forall this : Dot.State,
       versions (reporterOf (Dot.on (kind, payload) this)) = versions this)
   /\ (forall this : Mocha.State,
          versions (reporterOf (Mocha.on (kind, payload) this))
          = versions this))
  /\ (forall this : Dot.State,
         versions (reporterOf (Dot.on ("run:start", payload) this))
         = (None, None))
  /\ (forall this : Mocha.State,
         versions (reporterOf (Mocha.on ("run:start", payload) this))
         = (None, None))
  /\ (forall this : Dot.State,
         versions (reporterOf (Dot.on ("project:uses", payload) this))
         = (Tstyche.compilerVersion payload, Tstyche.compilerVersion payload))
  /\ (forall this : Mocha.State,
         versions (reporterOf (Mocha.on ("project:uses", payload) this))
         = (Tstyche.compilerVersion payload, Tstyche.compilerVersion payload)).
Proof.
  split; [|split; [|split; [|split]]].
  - intros Hstart Huses.
    rewrite <- route_RunStart in Hstart.
    rewrite <- route_ProjectUses in Huses.
    split; intros this.
    + now apply dot_versions_frame.
    + now apply mocha_versions_frame.
  - intros this. reflexivity.
  - intros this. reflexivity.
  - intros this.
    change (Dot.on ("project:uses", payload) this)
      with (Base._onProjectUses Dot.methods payload this).
    rewrite (onProjectUses_spec Dot.methods payload this
               flushDots_keeps_versions).
    cbv zeta.
    destruct (strictNotEquals _ _) eqn:Hne; [reflexivity|].
    apply strictNotEquals_false in Hne.
    unfold versions; cbn. now rewrite Hne.
  - intros this.
    change (Mocha.on ("project:uses", payload) this)
      with (Base._onProjectUses Mocha.methods payload this).
    rewrite (onProjectUses_spec Mocha.methods payload this
               base_hook_keeps_versions).
    cbv zeta.
    destruct (strictNotEquals _ _) eqn:Hne; [reflexivity|].
    apply strictNotEquals_false in Hne.
    unfold versions; cbn. now rewrite Hne.
Qed.

Lemma versions_written_only_by_start_and_uses_witness :
  "test:pass" <> "run:start"
  /\ "test:pass" <> "project:uses"
  /\ versions
       (reporterOf
          (Dot.on ("test:pass", emptyPayload)
             (reporterOf (Dot.on (projectUses "5.4") (Dot.new cliFormat)))))
     = (Some "5.4", Some "5.4").
Proof.
  split; [discriminate|].
  split; [discriminate|].
  destruct (versions_written_only_by_start_and_uses "test:pass" emptyPayload)
    as [Hframe _].
  destruct Hframe as [Hdot _]; [discriminate | discriminate |].
  rewrite Hdot. reflexivity.
Defined.

(* ================================================================= *)
(** ** Deduplication of the version header *)

Lemma app_snoc_neq {A} (l pre : list A) (last : A) :
  l ++ pre ++ [last] <> l.
Proof.
  intros Heq. apply (f_equal (@length A)) in Heq.
  rewrite !length_app in Heq. cbn in Heq. lia.
Qed.

Lemma flushDots_console (this : Dot.State) :
  console (Dot.flushDots this) = console this ++ flushItems this.
Proof.
  unfold Dot.flushDots, flushItems.
  destruct (0 <? Dot.dots this)%nat; cbn; [reflexivity|].
  now rewrite app_nil_r.
Qed.

Lemma dot_on_project_uses (payload : Tstyche.Payload) (this : Dot.State) :
  let version := Tstyche.compilerVersion payload in
  Dot.on ("project:uses", payload) this
  = Returned
      (if strictNotEquals version (lastShownCompilerVersion this)
       then
         mkReporter (format this) version version (Dot.mkFields 0)
           (console this ++ flushItems this
            ++ [versionHeader (format this) version])
       else set_currentCompilerVersion version this).
Proof.
  intros version.
  change (Dot.on ("project:uses", payload) this)
    with (Base._onProjectUses Dot.methods payload this).
  rewrite (onProjectUses_spec Dot.methods payload this
             flushDots_keeps_versions).
  cbv zeta. fold version.
  destruct (strictNotEquals version (lastShownCompilerVersion this));
    [|reflexivity].
  cbn [beforePrintCompilerVersion Dot.methods].
  unfold Dot._beforePrintCompilerVersion.
  rewrite flushDots_console.
  pose proof (flushDots_dots (set_currentCompilerVersion version this))
    as Hdots.
  unfold Dot.dots in Hdots.
  destruct (own (Dot.flushDots (set_currentCompilerVersion version this)))
    as [n]. cbn in Hdots. subst n.
  rewrite <- app_assoc. reflexivity.
Qed.

Lemma mocha_on_project_uses (payload : Tstyche.Payload)
  (this : Mocha.State) :
  let version := Tstyche.compilerVersion payload in
  Mocha.on ("project:uses", payload) this
  = Returned
      (if strictNotEquals version (lastShownCompilerVersion this)
       then
         mkReporter (format this) version version (own this)
           (console this ++ [versionHeader (format this) version])
       else set_currentCompilerVersion version this).
Proof.
  intros version.
  change (Mocha.on ("project:uses", payload) this)
    with (Base._onProjectUses Mocha.methods payload this).
  rewrite (onProjectUses_spec Mocha.methods payload this
             base_hook_keeps_versions).
  reflexivity.
Qed.

(** C1: on [project:uses] the version header is printed exactly when the
    version of the event differs from the one shown last, and the version
    shown last is the version of the event afterwards.  After [run:start],
    the versions V1, V1, V2, V2, V1 print the header three times: for V1,
    for V2 and for V1 again. *)
Theorem version_header_printed_on_change :
  (forall (version : string) (payload : Tstyche.Payload),
      Tstyche.compilerVersion payload = Some version ->
      (forall this : Dot.State,
          exists after,
            Dot.on ("project:uses", payload) this = Returned after
            /\ lastShownCompilerVersion after = Some version
            /\ (lastShownCompilerVersion this <> Some version ->
                console after
                = console this ++ flushItems this
                  ++ [versionHeader (format this) (Some version)])
            /\ (lastShownCompilerVersion this = Some version ->
                console after = console this)
            /\ (console after <> console this
                <-> lastShownCompilerVersion this <> Some version))
      /\ (forall this : Mocha.State,
             exists after,
               Mocha.on ("project:uses", payload) this = Returned after
               /\ lastShownCompilerVersion after = Some version
               /\ (lastShownCompilerVersion this <> Some version ->
                   console after
                   = console this
                     ++ [versionHeader (format this) (Some version)])
               /\ (lastShownCompilerVersion this = Some version ->
                   console after = console this)
               /\ (console after <> console this
                   <-> lastShownCompilerVersion this <> Some version)))
  /\ (forall (V1 V2 : string) (start : Tstyche.Payload),
         V1 <> V2 ->
         (forall this : Dot.State,
             exists after,
               Dot.deliver
                 [("run:start", start); projectUses V1; projectUses V1;
                  projectUses V2; projectUses V2; projectUses V1] this
               = Returned after
               /\ console after
                  = console this
                    ++ [versionHeader (format this) (Some V1);
                        versionHeader (format this) (Some V2);
                        versionHeader (format this) (Some V1)])
         /\ (forall this : Mocha.State,
                exists after,
                  Mocha.deliver
                    [("run:start", start); projectUses V1; projectUses V1;
                     projectUses V2; projectUses V2; projectUses V1] this
                  = Returned after
                  /\ console after
                     = console this
                       ++ [versionHeader (format this) (Some V1);
                           versionHeader (format this) (Some V2);
                           versionHeader (format this) (Some V1)])).
Proof.
  split.
  - intros version payload Hversion. split; intros this.
    + rewrite dot_on_project_uses. cbv zeta. rewrite Hversion.
      eexists. split; [reflexivity|].
      destruct (strictNotEquals (Some version)
                  (lastShownCompilerVersion this)) eqn:Hne.
      * apply strictNotEquals_true in Hne.
        split; [reflexivity|]. split; [reflexivity|].
        split; [congruence|].
        split; [intros _; congruence | intros _; apply app_snoc_neq].
      * apply strictNotEquals_false in Hne.
        split; [now symmetry|]. split; [congruence|].
        split; [reflexivity|].
        split; [intros Hout; now elim Hout | congruence].
    + rewrite mocha_on_project_uses. cbv zeta. rewrite Hversion.
      eexists. split; [reflexivity|].
      destruct (strictNotEquals (Some version)
                  (lastShownCompilerVersion this)) eqn:Hne.
      * apply strictNotEquals_true in Hne.
        split; [reflexivity|]. split; [reflexivity|].
        split; [congruence|].
        split; [intros _; congruence|].
        intros _. apply (app_snoc_neq (console this) []).
      * apply strictNotEquals_false in Hne.
        split; [now symmetry|]. split; [congruence|].
        split; [reflexivity|].
        split; [intros Hout; now elim Hout | congruence].
  - intros V1 V2 start Hne.
    assert (H12 : String.eqb V1 V2 = false) by now apply String.eqb_neq.
    assert (H21 : String.eqb V2 V1 = false)
      by (apply String.eqb_neq; congruence).
    split; intros [fmt cur last x out].
    + destruct x as [d].
      unfold Dot.deliver, projectUses, usesPayload. cbn.
      repeat (unfold Base._onProjectUses; cbn;
              rewrite ?String.eqb_refl, ?H12, ?H21; cbn).
      eexists. split; [reflexivity|].
      cbn. rewrite <- !app_assoc. reflexivity.
    + unfold Mocha.deliver, projectUses, usesPayload. cbn.
      repeat (unfold Base._onProjectUses; cbn;
              rewrite ?String.eqb_refl, ?H12, ?H21; cbn).
      eexists. split; [reflexivity|].
      cbn. rewrite <- !app_assoc. reflexivity.
Qed.

Lemma version_header_printed_on_change_witness :
  Tstyche.compilerVersion (usesPayload "5.4") = Some "5.4"
  /\ "5.4" <> "5.8"
  /\ (exists after,
         Mocha.on ("project:uses", usesPayload "5.4") (Mocha.new cliFormat)
         = Returned after
         /\ lastShownCompilerVersion after = Some "5.4")
  /\ (exists after,
         Dot.deliver
           [("run:start", emptyPayload); projectUses "5.4"; projectUses "5.4";
            projectUses "5.8"; projectUses "5.8"; projectUses "5.4"]
           (Dot.new markdownFormat)
         = Returned after
         /\ console after
            = [ConsoleLog
                (nl ++ "# uses TypeScript 5.4 with ./tsconfig.json"
                 ++ nl)%string;
               ConsoleLog
                   (nl ++ "# uses TypeScript 5.8 with ./tsconfig.json"
                    ++ nl)%string;
               ConsoleLog
                   (nl ++ "# uses TypeScript 5.4 with ./tsconfig.json"
                    ++ nl)%string]).
Proof.
  assert (Hne : "5.4" <> "5.8") by discriminate.
  destruct version_header_printed_on_change as [Hevent Hrun].
  split; [reflexivity|].
  split; [exact Hne|].
  split.
  - destruct (Hevent "5.4" (usesPayload "5.4") eq_refl) as [_ Hmocha].
    destruct (Hmocha (Mocha.new cliFormat)) as (after & Hon & Hlast & _).
    exists after. split; assumption.
  - destruct (Hrun "5.4" "5.8" emptyPayload Hne) as [Hdot _].
    destruct (Hdot (Dot.new markdownFormat)) as (after & Hdeliver & Hout).
    exists after. split; [exact Hdeliver|].
    rewrite Hout. reflexivity.
Defined.

(* ================================================================= *)
(** ** Indentation in the mocha reporter *)

Lemma length_removelast {A} (l : list A) :
  length (removelast l) = length l - 1.
Proof.
  induction l as [|a [|b l] IH]; [reflexivity | reflexivity |].
  change (removelast (a :: b :: l)) with (a :: removelast (b :: l)).
  cbn [length] in *. rewrite IH. lia.
Qed.

(** One event moves the depth of the describe stack as [scopeDepth] says. *)
Lemma mocha_on_depth (kind : string) (payload : Tstyche.Payload)
  (this after : Mocha.State) :
  Mocha.on (kind, payload) this = Returned after ->
  length (Mocha.stack after) = scopeDepth (length (Mocha.stack this)) [kind].
Proof.
  unfold Mocha.on, Base.on, scopeDepth; cbn [fst snd].
  destruct (route kind) as [[]|]; cbn; intros Hon;
    try (injection Hon as <-; cbn; try reflexivity).
  - unfold Mocha._onError, Base._onError in Hon; cbn [snd] in Hon.
    pose proof (printErrors_frame payload (emit (ConsoleLog "") this))
      as (_ & _ & Hown & _).
    cbv zeta in Hown. rewrite Hon in Hown. cbn in Hown.
    unfold Mocha.stack. now rewrite Hown.
  - unfold Base._onProjectUses in Hon. cbv zeta in Hon.
    destruct (strictNotEquals _ _) in Hon; injection Hon as <-; reflexivity.
  - unfold Mocha.stack; cbn. rewrite length_app. reflexivity.
  - unfold Mocha.stack; cbn. apply length_removelast.
  - discriminate.
Qed.

Lemma scopeDepth_cons (depth : nat) (kind : string) (kinds : list string) :
  scopeDepth depth (kind :: kinds) = scopeDepth (scopeDepth depth [kind]) kinds.
Proof.
  cbn [scopeDepth]. destruct (route kind) as [[]|]; reflexivity.
Qed.

Lemma mocha_deliver_depth (events : list Tstyche.ReporterEvent) :
  forall this after : Mocha.State,
    Mocha.deliver events this = Returned after ->
    length (Mocha.stack after)
    = scopeDepth (length (Mocha.stack this)) (map fst events).
Proof.
  induction events as [|[kind payload] events IH]; intros this after Hrun.
  - injection Hrun as <-. reflexivity.
  - cbn [map fst]. rewrite scopeDepth_cons.
    unfold Mocha.deliver in Hrun. cbn [Base.deliver] in Hrun.
    destruct (Base.on Mocha.methods (kind, payload) this)
      as [next|next message] eqn:Hon; [|discriminate].
    rewrite <- (mocha_on_depth kind payload this next Hon).
    apply IH. exact Hrun.
Qed.

(** C4: a [test:pass] or [test:fail] line is printed with the depth of the
    describe stack as its indentation, and that depth is the number of
    [describe:start] events still open: inside A, B, C the indentation is
    3, and 2 once C has ended. *)
Theorem mocha_test_indent_is_stack_depth :
  (forall (payload : Tstyche.Payload) (this : Mocha.State),
      Mocha.on ("test:pass", payload) this
      = Returned (Mocha.printTest (Mocha.testName payload) true
                    (length (Mocha.stack this)) this)
      /\ Mocha.on ("test:fail", payload) this
         = Returned (Mocha.printTest (Mocha.testName payload) false
                       (length (Mocha.stack this)) this))
  /\ (forall (events : list Tstyche.ReporterEvent)
             (this after : Mocha.State),
         Mocha.deliver events this = Returned after ->
         length (Mocha.stack after)
         = scopeDepth (length (Mocha.stack this)) (map fst events))
  /\ (forall (A B C : Tstyche.Payload) (this : Mocha.State),
         Mocha.stack this = [] ->
         exists inC inB,
           Mocha.deliver
             [("describe:start", A); ("describe:start", B);
              ("describe:start", C)] this = Returned inC
           /\ Mocha.on ("describe:end", C) inC = Returned inB
           /\ (forall payload,
                  Mocha.on ("test:pass", payload) inC
                  = Returned (Mocha.printTest (Mocha.testName payload) true 3
                                inC))
           /\ (forall payload,
                  Mocha.on ("test:pass", payload) inB
                  = Returned (Mocha.printTest (Mocha.testName payload) true 2
                                inB)))
  /\ (forall (description : string) (passed : bool) (depth : nat)
             (chalk : MarkdownOrChalk.Chalk) (this : Mocha.State),
         MarkdownOrChalk.chalk (format this) = Some chalk ->
         0 < depth ->
         console (Mocha.printTest description passed depth this)
         = console this
           ++ [ConsoleLog
                 (MarkdownOrChalk.indent (format this)
                    ((if passed then MarkdownOrChalk.gray chalk
                      else MarkdownOrChalk.red chalk)
                       ((if passed
                         then MarkdownOrChalk.logSymbols_success (format this)
                         else MarkdownOrChalk.logSymbols_error (format this))
                        ++ " " ++ description)%string)
                    depth)]).
Proof.
  split; [|split; [|split]]; cycle 3.
  - intros description passed depth chalk this Hchalk Hdepth.
    unfold Mocha.printTest. cbv zeta. rewrite Hchalk.
    destruct (Nat.ltb_spec 0 depth) as [_|Hle]; [|lia].
    destruct passed; reflexivity.
  - intros payload this. split; reflexivity.
  - exact mocha_deliver_depth.
  - intros A B C [fmt cur last [stack] out] Hempty.
    unfold Mocha.stack in Hempty; cbn in Hempty. subst stack.
    eexists. eexists.
    split; [reflexivity|].
    split; [reflexivity|].
    split; intros payload; reflexivity.
Qed.

Lemma mocha_test_indent_is_stack_depth_witness :
  Mocha.deliver
    [("run:start", emptyPayload); ("describe:start", describePayload "A");
     ("describe:start", describePayload "B");
     ("describe:start", describePayload "C");
     ("test:pass", testPayload "x"); ("describe:end", emptyPayload);
     ("test:fail", testPayload "y")]
    (Mocha.new cliFormat)
  = Returned
      (mkReporter cliFormat None None
         (Mocha.mkFields [Mocha.mkDescribe "A"; Mocha.mkDescribe "B"])
         [ConsoleLog "[bold]A"; ConsoleLog "[bold]B"; ConsoleLog "[bold]C";
          ConsoleLog "      [gray]v x"; ConsoleLog "    [red]x y"])
  /\ length [Mocha.mkDescribe "A"; Mocha.mkDescribe "B"]
     = scopeDepth 0
         ["run:start"; "describe:start"; "describe:start"; "describe:start";
          "test:pass"; "describe:end"; "test:fail"]
  /\ Mocha.stack (Mocha.new cliFormat) = []
  /\ MarkdownOrChalk.chalk (format (Mocha.new cliFormat))
     = Some (MarkdownOrChalk.mkChalk
               (fun text => "[red]" ++ text)%string
               (fun text => "[gray]" ++ text)%string)
  /\ 0 < 3
  /\ console (Mocha.printTest "x" true 3 (Mocha.new cliFormat))
     = [ConsoleLog "      [gray]v x"].
Proof.
  destruct mocha_test_indent_is_stack_depth as (_ & Hdepth & _ & Hprint).
  split; [reflexivity|].
  split.
  - apply (Hdepth
             [("run:start", emptyPayload);
              ("describe:start", describePayload "A");
              ("describe:start", describePayload "B");
              ("describe:start", describePayload "C");
              ("test:pass", testPayload "x"); ("describe:end", emptyPayload);
              ("test:fail", testPayload "y")]
             (Mocha.new cliFormat)
             (mkReporter cliFormat None None
                (Mocha.mkFields [Mocha.mkDescribe "A"; Mocha.mkDescribe "B"])
                [ConsoleLog "[bold]A"; ConsoleLog "[bold]B";
                 ConsoleLog "[bold]C"; ConsoleLog "      [gray]v x";
                 ConsoleLog "    [red]x y"])).
    reflexivity.
  - split; [reflexivity|].
    split; [reflexivity|].
    split; [lia|].
    rewrite (Hprint "x" true 3 _ (Mocha.new cliFormat) eq_refl); [|lia].
    reflexivity.
Defined.

(* ================================================================= *)
(** ** The marks of the dot reporter *)

Lemma flushItems_marks (this : Dot.State) : marks (flushItems this) = [].
Proof.
  unfold flushItems. destruct (0 <? Dot.dots this)%nat; reflexivity.
Qed.

Lemma flushDots_marks (this : Dot.State) :
  marks (console (Dot.flushDots this)) = marks (console this).
Proof.
  rewrite flushDots_console, marks_app, flushItems_marks.
  apply app_nil_r.
Qed.

Lemma writeDotChar_marks (char : string) (this : Dot.State) :
  marks (console (Dot.writeDotChar char this))
  = marks (console this) ++ [char].
Proof.
  destruct (Nat.lt_ge_cases (Dot.dots this + 1) 80) as [Hlt|Hge].
  - destruct (writeDotChar_below char this Hlt) as [-> _].
    now rewrite marks_app.
  - destruct (writeDotChar_wrap char this Hge) as [-> _].
    now rewrite marks_app.
Qed.

Lemma printErrors_throws {X} (payload : Tstyche.Payload)
  (this : Reporter X) :
  throws (Base._printErrors payload this)
  = match Tstyche.diagnostics payload with
    | Some _ => false
    | None => true
    end.
Proof.
  unfold Base._printErrors.
  destruct (Tstyche.diagnostics payload); reflexivity.
Qed.

(** Whether [on] throws depends on the event alone. *)
Lemma dot_on_throws (reporterEvent : Tstyche.ReporterEvent)
  (this : Dot.State) :
  throws (Dot.on reporterEvent this) = haltsOn reporterEvent.
Proof.
  unfold Dot.on, Base.on, haltsOn.
  destruct (route (fst reporterEvent)) as [[]|]; try reflexivity.
  - apply printErrors_throws.
  - apply onProjectUses_returns.
Qed.

(** One event adds its mark to the marks written so far, and nothing
    else. *)
Lemma dot_on_marks (reporterEvent : Tstyche.ReporterEvent)
  (this : Dot.State) :
  marks (console (reporterOf (Dot.on reporterEvent this)))
  = marks (console this) ++ markOf (fst reporterEvent).
Proof.
  destruct reporterEvent as [kind payload].
  unfold Dot.on, Base.on, markOf; cbn [fst snd].
  destruct (route kind) as [[]|] eqn:Hroute;
    try (cbn; now rewrite app_nil_r).
  - cbn. unfold Dot._onError, Base._onError; cbn [snd].
    destruct (printErrors_frame payload (Dot.flushDots this))
      as (_ & _ & _ & Hmarks).
    cbv zeta in Hmarks. rewrite Hmarks, flushDots_marks.
    now rewrite app_nil_r.
  - change (Base._onProjectUses Dot.methods payload this)
      with (Dot.on ("project:uses", payload) this).
    rewrite dot_on_project_uses. cbv zeta.
    destruct (strictNotEquals _ _); cbn; [|now rewrite app_nil_r].
    rewrite !marks_app, flushItems_marks. reflexivity.
  - cbn. apply writeDotChar_marks.
  - cbn. apply writeDotChar_marks.
  - cbn. rewrite <- app_assoc, marks_app, flushDots_marks. reflexivity.
Qed.

Lemma dot_deliver_marks (events : list Tstyche.ReporterEvent) :
  forall this : Dot.State,
    marks (console (reporterOf (Dot.deliver events this)))
    = marks (console this) ++ expectedMarks events.
Proof.
  induction events as [|e events IH]; intros this.
  - cbn. now rewrite app_nil_r.
  - unfold Dot.deliver. cbn [Base.deliver expectedMarks].
    pose proof (dot_on_marks e this) as Hmarks.
    pose proof (dot_on_throws e this) as Hthrows.
    unfold Dot.on in Hmarks, Hthrows.
    destruct (Base.on Dot.methods e this) as [next|next message];
      cbn in Hmarks, Hthrows; rewrite <- Hthrows; cbn.
    + fold (Dot.deliver events next).
      rewrite IH, Hmarks, app_assoc. reflexivity.
    + rewrite Hmarks, app_nil_r. reflexivity.
Qed.

(** C10: the dot reporter writes ["."] for [test:pass] and ["F"] for
    [test:fail], whatever the formatter is; the marks of a run are a
    function of its events, so two runs that differ only in the mode of
    the formatter write the same marks. *)
Theorem dot_marks_independent_of_mode :
  (forall (payload : Tstyche.Payload) (this : Dot.State),
      Dot.on ("test:pass", payload) this
      = Returned (Dot.writeDotChar "." this)
      /\ marks (console (Dot.writeDotChar "." this))
         = marks (console this) ++ ["."]
      /\ Dot.on ("test:fail", payload) this
         = Returned (Dot.writeDotChar "F" this)
      /\ marks (console (Dot.writeDotChar "F" this))
         = marks (console this) ++ ["F"])
  /\ (forall (fmt : Format) (events : list Tstyche.ReporterEvent),
         marks (console (reporterOf (Dot.deliver events (Dot.new fmt))))
         = expectedMarks events)
  /\ (forall (markdown cli : Format) (events : list Tstyche.ReporterEvent),
         marks (console (reporterOf (Dot.deliver events (Dot.new markdown))))
         = marks (console (reporterOf (Dot.deliver events (Dot.new cli))))).
Proof.
  split; [|split].
  - intros payload this.
    split; [reflexivity|].
    split; [apply writeDotChar_marks|].
    split; [reflexivity | apply writeDotChar_marks].
  - intros fmt events. now rewrite dot_deliver_marks.
  - intros markdown cli events. now rewrite !dot_deliver_marks.
Qed.

(* ================================================================= *)
(** ** Out-of-band output of the dot reporter *)

Lemma errorItems_line (fmt : Format) (diagnostics : list Diagnostic) :
  columnAfter 0 (errorItems fmt diagnostics) = 0
  /\ outOfBandAtLineStart 0 (errorItems fmt diagnostics) = true.
Proof.
  induction diagnostics as [|d ds [IHc IHo]]; [split; reflexivity|].
  split; [exact IHc | exact IHo].
Qed.

Lemma flushItems_line (this : Dot.State) :
  Dot.dots this = columnAfter 0 (console this) ->
  columnAfter 0 (console this ++ flushItems this) = 0
  /\ outOfBandAtLineStart (columnAfter 0 (console this)) (flushItems this)
     = true.
Proof.
  intros Hcol. unfold flushItems. rewrite columnAfter_app.
  destruct (Nat.ltb_spec 0 (Dot.dots this)) as [Hlt|Hle].
  - split; reflexivity.
  - split; [cbn; lia | reflexivity].
Qed.

(** Flushing keeps the column count and the output in step, and leaves
    the line closed. *)
Lemma flushDots_lineTracked (this : Dot.State) :
  lineTracked this ->
  lineTracked (Dot.flushDots this)
  /\ columnAfter 0 (console (Dot.flushDots this)) = 0.
Proof.
  intros [Hcol Hclean].
  destruct (flushItems_line this Hcol) as [Hzero Hflush].
  unfold lineTracked.
  rewrite flushDots_dots, flushDots_console, outOfBandAtLineStart_app.
  rewrite Hzero, Hclean, Hflush. repeat split.
Qed.

(** Writing a one-character mark keeps the column count and the output in
    step. *)
Lemma writeDotChar_lineTracked (char : string) (this : Dot.State) :
  String.length char = 1 ->
  lineTracked this ->
  lineTracked (Dot.writeDotChar char this).
Proof.
  intros Hchar [Hcol Hclean]. unfold lineTracked.
  destruct (Nat.lt_ge_cases (Dot.dots this + 1) 80) as [Hlt|Hge].
  - destruct (writeDotChar_below char this Hlt) as [-> ->].
    rewrite columnAfter_app, outOfBandAtLineStart_app, Hclean.
    cbn. rewrite Hchar, Hcol. split; reflexivity.
  - destruct (writeDotChar_wrap char this Hge) as [-> ->].
    rewrite columnAfter_app, outOfBandAtLineStart_app, Hclean.
    split; reflexivity.
Qed.

(** One event keeps the column count and the output in step, unless it
    is a [run:start] that arrives while the column count is not 0. *)
Lemma dot_on_lineTracked (reporterEvent : Tstyche.ReporterEvent)
  (this : Dot.State) :
  lineTracked this ->
  (route (fst reporterEvent) = Some RRunStart -> Dot.dots this = 0) ->
  lineTracked (reporterOf (Dot.on reporterEvent this)).
Proof.
  intros Htracked Hstart.
  destruct reporterEvent as [kind payload].
  unfold Dot.on, Base.on; cbn [fst snd] in *.
  destruct (route kind) as [[]|] eqn:Hroute; try exact Htracked.
  - (* error kinds *)
    cbn. unfold Dot._onError, Base._onError, Base._printErrors; cbn [snd].
    destruct (flushDots_lineTracked this Htracked) as [[Hcol Hclean] Hzero].
    destruct (Tstyche.diagnostics payload) as [ds|]; cbn [reporterOf];
      [|split; assumption].
    rewrite printErrors_fold.
    destruct (errorItems_line (format (Dot.flushDots this)) ds)
      as [Hecol Heclean].
    unfold lineTracked, Dot.dots in *; cbn.
    rewrite columnAfter_app, outOfBandAtLineStart_app.
    rewrite Hzero, Hecol, Hclean, Heclean. split; [congruence | reflexivity].
  - (* run:start *)
    destruct Htracked as [Hcol Hclean].
    specialize (Hstart eq_refl). rewrite Hstart in Hcol.
    split; cbn; [exact Hcol | exact Hclean].
  - (* project:uses *)
    change (Base._onProjectUses Dot.methods payload this)
      with (Dot.on ("project:uses", payload) this).
    rewrite dot_on_project_uses. cbv zeta.
    destruct Htracked as [Hcol Hclean].
    destruct (strictNotEquals _ _); cbn [reporterOf];
      [|split; assumption].
    destruct (flushItems_line this Hcol) as [Hzero Hflush].
    unfold lineTracked, Dot.dots; cbn.
    rewrite app_assoc, columnAfter_app, outOfBandAtLineStart_app.
    rewrite outOfBandAtLineStart_app, Hzero, Hclean, Hflush.
    split; [reflexivity|].
    unfold versionHeader; cbn.
    destruct (negb _); reflexivity.
  - (* test:pass *)
    cbn. now apply writeDotChar_lineTracked.
  - (* test:fail *)
    cbn. now apply writeDotChar_lineTracked.
  - (* run:end *)
    cbn.
    destruct (flushDots_lineTracked this Htracked) as [[Hcol Hclean] Hzero].
    unfold lineTracked, Dot.dots in *; cbn.
    rewrite <- app_assoc, columnAfter_app, outOfBandAtLineStart_app.
    rewrite Hzero, Hclean. split; [cbn; congruence | reflexivity].
Qed.

(** The out-of-band items of a run lie at line starts, as long as no
    [run:start] arrives on an open line. *)
Lemma dot_deliver_lineTracked (events : list Tstyche.ReporterEvent) :
  forall this : Dot.State,
    lineTracked this ->
    runStartsOnClosedLine events this = true ->
    lineTracked (reporterOf (Dot.deliver events this)).
Proof.
  induction events as [|e events IH]; intros this Htracked Hstarts.
  - exact Htracked.
  - cbn [runStartsOnClosedLine] in Hstarts.
    apply andb_true_iff in Hstarts as [Hhere Hrest].
    assert (Hnext : lineTracked (reporterOf (Dot.on e this))).
    { apply dot_on_lineTracked; [exact Htracked|].
      intros Hroute. rewrite Hroute in Hhere.
      now apply Nat.eqb_eq in Hhere. }
    unfold Dot.deliver. cbn [Base.deliver].
    fold (Dot.on e this).
    destruct (Dot.on e this) as [next|next message]; cbn.
    + apply IH; assumption.
    + exact Hnext.
Qed.

Lemma route_error (kind : string) :
  In kind errorKinds -> route kind = Some RError.
Proof.
  intros Hin. apply isOneOf_In in Hin. unfold route. now rewrite Hin.
Qed.

Lemma dot_on_run_end_dots (kind : string) (payload : Tstyche.Payload)
  (this : Dot.State) :
  route kind = Some RRunEnd ->
  Dot.dots (reporterOf (Dot.on (kind, payload) this)) = 0.
Proof.
  intros Hroute. unfold Dot.on, Base.on; cbn [fst snd]. rewrite Hroute.
  cbn. unfold Dot.dots; cbn. apply flushDots_dots.
Qed.

(** In a stream where each [run:start] directly follows a [run:end], or
    is the first event for a reporter at column 0, every [run:start]
    arrives at column 0. *)
Lemma startsFollowEnds_closed (events : list Tstyche.ReporterEvent) :
  forall (afterEnd : bool) (this : Dot.State),
    (afterEnd = true -> Dot.dots this = 0) ->
    startsFollowEnds afterEnd events = true ->
    runStartsOnClosedLine events this = true.
Proof.
  induction events as [|[kind payload] events IH];
    intros afterEnd this Hzero Hstarts; [reflexivity|].
  cbn [startsFollowEnds runStartsOnClosedLine fst] in *.
  apply andb_true_iff in Hstarts as [Hhere Hrest].
  apply andb_true_iff. split.
  - destruct (route kind) as [[]|]; try reflexivity.
    apply Nat.eqb_eq. now apply Hzero.
  - pose proof (dot_on_run_end_dots kind payload this) as Hend.
    destruct (Dot.on (kind, payload) this) as [next|next message];
      [|reflexivity].
    refine (IH _ next _ Hrest).
    destruct (route kind) as [[]|]; try discriminate.
    intros _. now apply Hend.
Qed.

(** C5: in the dot reporter an error block and a version header are
    emitted directly after [#flushDots], so the column count is 0 at the
    moment of emission, in every state and hence at every point of every
    sequence of events: a pending dot line has been terminated first.  No
    error line and no header is written behind pending marks in any run
    in which [run:start] arrives at column count 0, and so in every stream
    that a producer dispatches, where [run:start] comes first or directly
    after the [run:end] of the run before. *)
Theorem dot_out_of_band_after_flush :
  (forall (kind : string) (payload : Tstyche.Payload)
          (diagnostics : list Diagnostic) (this : Dot.State),
      In kind errorKinds ->
      Tstyche.diagnostics payload = Some diagnostics ->
      exists after,
        Dot.on (kind, payload) this = Returned after
        /\ Dot.dots (Dot.flushDots this) = 0
        /\ console after
           = console (Dot.flushDots this)
             ++ errorItems (format this) diagnostics
        /\ Dot.dots after = 0)
  /\ (forall (payload : Tstyche.Payload) (this : Dot.State),
         Tstyche.compilerVersion payload <> lastShownCompilerVersion this ->
         exists after,
           Dot.on ("project:uses", payload) this = Returned after
           /\ Dot.dots (Dot.flushDots this) = 0
           /\ console after
              = console (Dot.flushDots this)
                ++ [versionHeader (format this)
                      (Tstyche.compilerVersion payload)]
           /\ Dot.dots after = 0)
  /\ (forall (events : list Tstyche.ReporterEvent) (this : Dot.State),
         lineTracked this ->
         runStartsOnClosedLine events this = true ->
         outOfBandAtLineStart 0
           (console (reporterOf (Dot.deliver events this))) = true)
  /\ (forall fmt : Format, lineTracked (Dot.new fmt))
  /\ (forall (fmt : Format) (events : list Tstyche.ReporterEvent),
         startsFollowEnds true events = true ->
         outOfBandAtLineStart 0
           (console (reporterOf (Dot.deliver events (Dot.new fmt)))) = true).
Proof.
  split; [|split; [|split; [|split]]]; cycle 4.
  - intros fmt events Hstarts.
    apply (dot_deliver_lineTracked events (Dot.new fmt));
      [split; reflexivity|].
    apply (startsFollowEnds_closed events true); [reflexivity | exact Hstarts].
  - intros kind payload ds this Hkind Hds.
    unfold Dot.on, Base.on; cbn [fst snd].
    rewrite (route_error kind Hkind).
    cbn. unfold Dot._onError, Base._onError; cbn [snd].
    rewrite (printErrors_Some payload ds _ Hds).
    destruct (flushDots_versions this) as (_ & _ & Hfmt).
    eexists. split; [reflexivity|].
    split; [apply flushDots_dots|].
    split; [cbn; now rewrite Hfmt|].
    apply flushDots_dots.
  - intros payload this Hne.
    apply strictNotEquals_true in Hne.
    rewrite dot_on_project_uses. cbv zeta. rewrite Hne.
    eexists. split; [reflexivity|].
    split; [apply flushDots_dots|].
    split; [|reflexivity].
    cbn. rewrite flushDots_console, <- app_assoc. reflexivity.
  - intros events this Htracked Hstarts.
    apply (dot_deliver_lineTracked events this Htracked Hstarts).
  - intros fmt. split; reflexivity.
Qed.

Lemma dot_out_of_band_after_flush_witness :
  (In "test:error" errorKinds
   /\ Tstyche.diagnostics (errorPayload [badType]) = Some [badType]
   /\ exists after,
       Dot.on ("test:error", errorPayload [badType])
         (Dot.writeDotChar "." (Dot.new markdownFormat))
       = Returned after
       /\ console after
          = [StdoutWrite "."; ConsoleLog "";
             ConsoleError "Error: bad type (E1)"])
  /\ (lineTracked (Dot.new markdownFormat)
      /\ runStartsOnClosedLine
           [("run:start", emptyPayload); ("test:pass", emptyPayload);
            projectUses "5.4"; ("test:fail", emptyPayload);
            ("test:error", errorPayload [badType]);
            ("run:end", emptyPayload); ("run:start", emptyPayload)]
           (Dot.new markdownFormat) = true
      /\ outOfBandAtLineStart 0
           (console
              (reporterOf
                 (Dot.deliver
                    [("run:start", emptyPayload); ("test:pass", emptyPayload);
                     projectUses "5.4"; ("test:fail", emptyPayload);
                     ("test:error", errorPayload [badType]);
                     ("run:end", emptyPayload); ("run:start", emptyPayload)]
                    (Dot.new markdownFormat)))) = true)
  /\ (Tstyche.compilerVersion (usesPayload "5.4")
      <> lastShownCompilerVersion
           (Dot.writeDotChar "F" (Dot.new markdownFormat))
      /\ exists after,
          Dot.on ("project:uses", usesPayload "5.4")
            (Dot.writeDotChar "F" (Dot.new markdownFormat))
          = Returned after
          /\ console after
             = [StdoutWrite "F"; ConsoleLog "";
                ConsoleLog
                  (nl ++ "# uses TypeScript 5.4 with ./tsconfig.json" ++ nl)
                  %string])
  /\ (startsFollowEnds true
        [("run:start", emptyPayload); projectUses "5.4";
         ("test:pass", emptyPayload); ("run:end", emptyPayload);
         ("run:start", emptyPayload); ("test:fail", emptyPayload);
         ("file:error", errorPayload [badType]); ("run:end", emptyPayload)]
      = true
      /\ outOfBandAtLineStart 0
           (console
              (reporterOf
                 (Dot.deliver
                    [("run:start", emptyPayload); projectUses "5.4";
                     ("test:pass", emptyPayload); ("run:end", emptyPayload);
                     ("run:start", emptyPayload); ("test:fail", emptyPayload);
                     ("file:error", errorPayload [badType]);
                     ("run:end", emptyPayload)]
                    (Dot.new cliFormat)))) = true).
Proof.
  destruct dot_out_of_band_after_flush
    as (Herror & Hheader & Hrun & Hnew & Hstream).
  assert (Hkind : In "test:error" errorKinds)
    by (unfold errorKinds; simpl; tauto).
  split.
  - split; [exact Hkind|].
    split; [reflexivity|].
    destruct (Herror "test:error" (errorPayload [badType]) [badType]
                (Dot.writeDotChar "." (Dot.new markdownFormat))
                Hkind eq_refl) as (after & Hon & _ & Hout & _).
    exists after. split; [exact Hon|].
    rewrite Hout. reflexivity.
  - split.
    { split; [apply Hnew|].
      split; [reflexivity|].
      apply Hrun; [apply Hnew | reflexivity]. }
    split.
    { assert (Hne : Tstyche.compilerVersion (usesPayload "5.4")
                    <> lastShownCompilerVersion
                         (Dot.writeDotChar "F" (Dot.new markdownFormat)))
        by discriminate.
      split; [exact Hne|].
      destruct (Hheader (usesPayload "5.4")
                  (Dot.writeDotChar "F" (Dot.new markdownFormat)) Hne)
        as (after & Hon & _ & Hout & _).
      exists after. split; [exact Hon|].
      rewrite Hout. reflexivity. }
    split; [reflexivity|].
    apply (Hstream cliFormat). reflexivity.
Defined.

(* ================================================================= *)
(** * Further properties of the code *)

(* ================================================================= *)
(** ** More on the diagnostic formatter *)

Lemma truthy_false_suffixes (c : option string) :
  truthy c = false -> codeSuffix c = "" /\ categorySuffix c = "".
Proof.
  intros Hc. unfold codeSuffix, categorySuffix. rewrite Hc. split; reflexivity.
Qed.

(** X1: a code or category that is missing or the empty string, and a
    related list that is missing or empty, add nothing: a one-line
    diagnostic then formats to its text. *)
Theorem formatDiagnostic_nothing_to_append (line : string)
  (c cat : option string) (rel : option (list Diagnostic)) :
  truthy c = false ->
  truthy cat = false ->
  rel = None \/ rel = Some [] ->
  _formatDiagnostic (mkDiagnostic (TextLine line) c cat rel) = line.
Proof.
  intros Hc Hcat Hrel.
  rewrite formatDiagnostic_unfold. unfold primaryText.
  cbn [text code category related textLines].
  destruct (truthy_false_suffixes c Hc) as [-> _].
  destruct (truthy_false_suffixes cat Hcat) as [_ ->].
  destruct Hrel as [-> | ->]; cbn;
    now rewrite !append_empty_r.
Qed.

Lemma formatDiagnostic_nothing_to_append_witness :
  truthy (Some "") = false
  /\ truthy None = false
  /\ _formatDiagnostic
       (mkDiagnostic (TextLine "bad type") (Some "") None (Some []))
     = "bad type".
Proof.
  split; [reflexivity|].
  split; [reflexivity|].
  apply (formatDiagnostic_nothing_to_append "bad type" (Some "") None
           (Some [])); [reflexivity | reflexivity | right; reflexivity].
Defined.

(** X2: the code suffix is put on the first text line, so a diagnostic
    whose text is an empty array never shows its code: it formats as if it
    had none, and without related entries to the category suffix alone. *)
Theorem formatDiagnostic_empty_text_drops_code (c cat : option string)
  (rel : option (list Diagnostic)) :
  _formatDiagnostic (mkDiagnostic (TextLines []) c cat rel)
  = _formatDiagnostic (mkDiagnostic (TextLines []) None cat rel)
  /\ _formatDiagnostic (mkDiagnostic (TextLines []) c cat None)
     = categorySuffix cat
  /\ _formatDiagnostic (mkDiagnostic (TextLines []) c cat (Some []))
     = categorySuffix cat.
Proof.
  repeat split; rewrite !formatDiagnostic_unfold; reflexivity.
Qed.

(** X3: the two spaces of a related entry are put in front of its whole
    formatted text, so indentation does not grow with depth: an entry
    related to a related entry starts with two spaces, like its parent. *)
Theorem formatDiagnostic_indent_not_cumulative (d0 d1 d2 : Diagnostic) :
  related d0 = Some [d1] ->
  related d1 = Some [d2] ->
  _formatDiagnostic d0
  = (primaryText d0 ++ nl ++ "  " ++ primaryText d1
     ++ nl ++ "  " ++ _formatDiagnostic d2)%string.
Proof.
  intros H0 H1.
  rewrite (formatDiagnostic_unfold d0), H0.
  cbn [map join String.concat].
  rewrite (formatDiagnostic_unfold d1), H1.
  cbn [map join String.concat].
  reflexivity.
Qed.

Lemma formatDiagnostic_indent_not_cumulative_witness :
  _formatDiagnostic
    (mkDiagnostic (TextLine "a") None None
       (Some [mkDiagnostic (TextLine "b") None None
                (Some [mkDiagnostic (TextLine "c") None None None])]))
  = ("a" ++ nl ++ "  b" ++ nl ++ "  c")%string.
Proof.
  rewrite (formatDiagnostic_indent_not_cumulative
             (mkDiagnostic (TextLine "a") None None
                (Some [mkDiagnostic (TextLine "b") None None
                         (Some [mkDiagnostic (TextLine "c") None None None])]))
             (mkDiagnostic (TextLine "b") None None
                (Some [mkDiagnostic (TextLine "c") None None None]))
             (mkDiagnostic (TextLine "c") None None None)
             eq_refl eq_refl).
  reflexivity.
Defined.

Lemma countNl_append (a b : string) :
  countNl (a ++ b)%string = countNl a + countNl b.
Proof.
  induction a as [|x a IH]; cbn; [reflexivity | rewrite IH; lia].
Qed.

Lemma list_sum_cons (x : nat) (l : list nat) :
  list_sum (x :: l) = x + list_sum l.
Proof. reflexivity. Qed.

Lemma countNl_join (first : string) (rest : list string) :
  countNl (join nl (first :: rest))
  = list_sum (map countNl (first :: rest)) + length rest.
Proof.
  revert first.
  induction rest as [|second rest IH]; intros first.
  - cbn [join String.concat map length].
    rewrite list_sum_cons. cbn. lia.
  - change (join nl (first :: second :: rest))
      with (first ++ nl ++ join nl (second :: rest))%string.
    rewrite !countNl_append, IH.
    cbn [map length]. rewrite !list_sum_cons.
    change (countNl nl) with 1. lia.
Qed.

Lemma oneLine_sum (lines : list string) :
  forallb oneLine lines = true -> list_sum (map countNl lines) = 0.
Proof.
  induction lines as [|l lines IH]; [reflexivity|].
  cbn [forallb map]. intros H.
  apply andb_true_iff in H as [Hl Hrest].
  apply Nat.eqb_eq in Hl.
  rewrite list_sum_cons, Hl, (IH Hrest). reflexivity.
Qed.

Lemma oneLine_suffixes (c : option string) :
  oneLineOpt c = true ->
  countNl (codeSuffix c) = 0 /\ countNl (categorySuffix c) = 0.
Proof.
  intros Hc. unfold codeSuffix, categorySuffix.
  destruct (truthy c); [|split; reflexivity].
  destruct c as [s|]; cbn in *; [|split; reflexivity].
  apply Nat.eqb_eq in Hc.
  rewrite !countNl_append, Hc. split; reflexivity.
Qed.

(** Newlines in the text before the related entries: one between each
    two text lines. *)
Lemma countNl_primaryText (d : Diagnostic) :
  forallb oneLine (textLines (text d)) = true ->
  oneLineOpt (code d) = true ->
  oneLineOpt (category d) = true ->
  countNl (primaryText d) = length (textLines (text d)) - 1.
Proof.
  intros Hlines Hcode Hcat. unfold primaryText.
  destruct (oneLine_suffixes (code d) Hcode) as [Hc _].
  destruct (oneLine_suffixes (category d) Hcat) as [_ Hk].
  rewrite countNl_append, Hk.
  destruct (textLines (text d)) as [|first rest]; [reflexivity|].
  rewrite withCodeInline_cons, countNl_join.
  cbn [map forallb] in *.
  apply andb_true_iff in Hlines as [Hfirst Hrest].
  apply Nat.eqb_eq in Hfirst.
  rewrite list_sum_cons, countNl_append, Hfirst, Hc, (oneLine_sum rest Hrest).
  cbn [length]. lia.
Qed.

(** Newlines in the block of related entries: each entry has one line per
    text line of its tree. *)
Lemma countNl_related (r : Diagnostic) (entries : list Diagnostic) :
  Forall (fun d => countNl (_formatDiagnostic d) + 1 = textLineTotal d)
         (r :: entries) ->
  countNl
    (join nl (map (fun entry => "  " ++ _formatDiagnostic entry)%string
                  (r :: entries)))
  + 1
  = list_sum (map textLineTotal (r :: entries)).
Proof.
  revert r.
  induction entries as [|second entries IH]; intros r Hall;
    inversion Hall as [|? ? Hr Hrest]; subst.
  - cbn [map join String.concat]. rewrite list_sum_cons.
    rewrite countNl_append. cbn. lia.
  - change (join nl (map (fun entry => "  " ++ _formatDiagnostic entry)%string
                         (r :: second :: entries)))
      with (("  " ++ _formatDiagnostic r) ++ nl
            ++ join nl (map (fun entry => "  " ++ _formatDiagnostic entry)
                            (second :: entries)))%string.
    rewrite !countNl_append.
    change (countNl nl) with 1. change (countNl "  ") with 0.
    cbn [map]. rewrite list_sum_cons.
    specialize (IH second Hrest). cbn [map] in IH. lia.
Qed.

(** X4: when no text line, code or category contains a newline and every
    diagnostic of the tree has at least one text line, the formatted text
    has exactly one line per text line of the diagnostic and of all its
    related entries, at any depth. *)
Theorem formatDiagnostic_line_count (d : Diagnostic) :
  singleLined d = true ->
  countNl (_formatDiagnostic d) + 1 = textLineTotal d.
Proof.
  induction d as [t c cat rel IH] using Diagnostic_related_ind.
  intros Hclean. cbn [singleLined] in Hclean.
  repeat (apply andb_true_iff in Hclean as [Hclean ?]).
  rename Hclean into Hnonempty.
  apply negb_true_iff, Nat.eqb_neq in Hnonempty.
  rewrite formatDiagnostic_unfold, countNl_append.
  rewrite countNl_primaryText by assumption.
  cbn [text related textLineTotal].
  destruct rel as [[|r entries]|].
  - cbn. lia.
  - assert (Hall : Forall
               (fun d => countNl (_formatDiagnostic d) + 1 = textLineTotal d)
               (r :: entries)).
    { apply Forall_forall. intros e He.
      rewrite Forall_forall in IH. apply (IH e He).
      match goal with
      | H : forallb singleLined _ = true |- _ =>
          rewrite forallb_forall in H; now apply H
      end. }
    pose proof (countNl_related r entries Hall) as Hrel.
    rewrite countNl_append. change (countNl nl) with 1. lia.
  - cbn. lia.
Qed.

Lemma formatDiagnostic_line_count_witness :
  singleLined
    (mkDiagnostic (TextLines ["a"; "b"]) (Some "E1") (Some "error")
       (Some [mkDiagnostic (TextLine "c") None None
                (Some [mkDiagnostic (TextLine "d") None None None]);
              mkDiagnostic (TextLine "e") None None None]))
  = true
  /\ countNl
       (_formatDiagnostic
          (mkDiagnostic (TextLines ["a"; "b"]) (Some "E1") (Some "error")
             (Some [mkDiagnostic (TextLine "c") None None
                      (Some [mkDiagnostic (TextLine "d") None None None]);
                    mkDiagnostic (TextLine "e") None None None])))
     + 1
     = 5.
Proof.
  split; [reflexivity|].
  apply (formatDiagnostic_line_count
           (mkDiagnostic (TextLines ["a"; "b"]) (Some "E1") (Some "error")
              (Some [mkDiagnostic (TextLine "c") None None
                       (Some [mkDiagnostic (TextLine "d") None None None]);
                     mkDiagnostic (TextLine "e") None None None]))).
  reflexivity.
Defined.

(* ================================================================= *)
(** ** More on the dot reporter *)

Lemma writeDotChar_bound (char : string) (this : Dot.State) :
  Dot.dots (Dot.writeDotChar char this) < 80.
Proof.
  destruct (Nat.lt_ge_cases (Dot.dots this + 1) 80) as [Hlt|Hge].
  - destruct (writeDotChar_below char this Hlt) as [_ ->]. exact Hlt.
  - destruct (writeDotChar_wrap char this Hge) as [_ ->]. lia.
Qed.

Lemma printErrors_own {X} (payload : Tstyche.Payload) (this : Reporter X) :
  own (reporterOf (Base._printErrors payload this)) = own this.
Proof.
  destruct (printErrors_frame payload this) as (_ & _ & Hown & _).
  exact Hown.
Qed.

(** One event keeps the column count below the wrap column. *)
Lemma dot_on_bound (reporterEvent : Tstyche.ReporterEvent)
  (this : Dot.State) :
  Dot.dots this < 80 ->
  Dot.dots (reporterOf (Dot.on reporterEvent this)) < 80.
Proof.
  intros Hlt. destruct reporterEvent as [kind payload].
  unfold Dot.on, Base.on; cbn [fst snd].
  destruct (route kind) as [[]|]; try exact Hlt; cbn.
  - unfold Dot._onError, Base._onError, Dot.dots; cbn [snd].
    rewrite printErrors_own. fold (Dot.dots (Dot.flushDots this)).
    rewrite flushDots_dots. lia.
  - unfold Dot.dots; cbn. lia.
  - change (Base._onProjectUses Dot.methods payload this)
      with (Dot.on ("project:uses", payload) this).
    rewrite dot_on_project_uses. cbv zeta.
    destruct (strictNotEquals _ _); cbn; [unfold Dot.dots; cbn; lia|].
    exact Hlt.
  - apply writeDotChar_bound.
  - apply writeDotChar_bound.
  - unfold Dot.dots; cbn. fold (Dot.dots (Dot.flushDots this)).
    rewrite flushDots_dots. lia.
Qed.

(** X5: the column count of the dot reporter stays below 80: whatever
    events are delivered, known or not, throwing or not, a count below 80
    is below 80 afterwards; a new reporter starts at 0. *)
Theorem dot_count_below_80 (events : list Tstyche.ReporterEvent) :
  forall this : Dot.State,
    Dot.dots this < 80 ->
    Dot.dots (reporterOf (Dot.deliver events this)) < 80.
Proof.
  induction events as [|e events IH]; intros this Hlt; [exact Hlt|].
  unfold Dot.deliver. cbn [Base.deliver].
  pose proof (dot_on_bound e this Hlt) as Hnext.
  unfold Dot.on in Hnext.
  destruct (Base.on Dot.methods e this) as [next|next message]; cbn in *.
  - apply IH. exact Hnext.
  - exact Hnext.
Qed.

Lemma dot_count_below_80_witness :
  Dot.dots (Dot.new cliFormat) < 80
  /\ Dot.dots
       (reporterOf
          (Dot.deliver
             (repeat ("test:fail", emptyPayload) 200
              ++ [("no:such:kind", emptyPayload)])
             (Dot.new cliFormat)))
     < 80.
Proof.
  assert (Hnew : Dot.dots (Dot.new cliFormat) < 80) by (cbn; lia).
  split; [exact Hnew|].
  apply (dot_count_below_80 _ (Dot.new cliFormat) Hnew).
Defined.

Lemma writeDotChar_mod (char : string) (this : Dot.State) :
  Dot.dots this < 80 ->
  Dot.dots (Dot.writeDotChar char this) = (Dot.dots this + 1) mod 80.
Proof.
  intros Hlt.
  destruct (Nat.lt_ge_cases (Dot.dots this + 1) 80) as [Hbelow|Hge].
  - destruct (writeDotChar_below char this Hbelow) as [_ ->].
    symmetry. now apply Nat.mod_small.
  - destruct (writeDotChar_wrap char this Hge) as [_ ->].
    replace (Dot.dots this + 1) with 80 by lia. reflexivity.
Qed.

(** A test event of the dot reporter is one call of [#writeDotChar]. *)
Lemma dot_on_test (reporterEvent : Tstyche.ReporterEvent)
  (this : Dot.State) :
  isTestEvent reporterEvent = true ->
  exists char,
    Dot.on reporterEvent this = Returned (Dot.writeDotChar char this)
    /\ markOf (fst reporterEvent) = [char].
Proof.
  destruct reporterEvent as [kind payload].
  unfold isTestEvent, Dot.on, Base.on, markOf; cbn [fst snd].
  destruct (route kind) as [[]|]; try discriminate; intros _.
  - exists ".". split; reflexivity.
  - exists "F". split; reflexivity.
Qed.

(** X6: a run of [n] test results (passes and failures in any order)
    never throws, writes [n] marks, and moves the column count from [c],
    below 80, to [(c + n) mod 80]. *)
Theorem dot_count_after_tests (events : list Tstyche.ReporterEvent) :
  forall this : Dot.State,
    forallb isTestEvent events = true ->
    Dot.dots this < 80 ->
    exists after,
      Dot.deliver events this = Returned after
      /\ Dot.dots after = (Dot.dots this + length events) mod 80
      /\ length (marks (console after))
         = length (marks (console this)) + length events.
Proof.
  induction events as [|e events IH]; intros this Htests Hlt.
  - exists this. split; [reflexivity|]. cbn [length]. split; [|lia].
    rewrite Nat.add_0_r. symmetry. now apply Nat.mod_small.
  - cbn [forallb] in Htests. apply andb_true_iff in Htests as [He Hrest].
    destruct (dot_on_test e this He) as (char & Hon & _).
    destruct (IH (Dot.writeDotChar char this) Hrest
                (writeDotChar_bound char this)) as (after & Hrun & Hdots & Hmarks).
    exists after. split.
    + unfold Dot.deliver in *. cbn [Base.deliver].
      unfold Dot.on in Hon. rewrite Hon. exact Hrun.
    + split.
      * rewrite Hdots, (writeDotChar_mod char this Hlt).
        rewrite Nat.Div0.add_mod_idemp_l. cbn [length]. f_equal. lia.
      * rewrite Hmarks, writeDotChar_marks, length_app. cbn [length]. lia.
Qed.

Lemma dot_count_after_tests_witness :
  forallb isTestEvent
    (repeat ("test:pass", emptyPayload) 100
     ++ repeat ("test:fail", emptyPayload) 70) = true
  /\ Dot.dots (Dot.new markdownFormat) < 80
  /\ exists after,
      Dot.deliver
        (repeat ("test:pass", emptyPayload) 100
         ++ repeat ("test:fail", emptyPayload) 70)
        (Dot.new markdownFormat) = Returned after
      /\ Dot.dots after = 10.
Proof.
  assert (Hnew : Dot.dots (Dot.new markdownFormat) < 80) by (cbn; lia).
  split; [reflexivity|].
  split; [exact Hnew|].
  destruct (dot_count_after_tests
              (repeat ("test:pass", emptyPayload) 100
               ++ repeat ("test:fail", emptyPayload) 70)
              (Dot.new markdownFormat) eq_refl Hnew)
    as (after & Hrun & Hdots & _).
  exists after. split; [exact Hrun|].
  rewrite Hdots. reflexivity.
Defined.

Lemma widthWithin_app (limit col : nat) (first second : list OutItem) :
  widthWithin limit col (first ++ second)
  = widthWithin limit col first
    && widthWithin limit (columnAfter col first) second.
Proof.
  revert col.
  induction first as [|item first IH]; intros col; [reflexivity|].
  cbn [app widthWithin].
  rewrite IH, <- andb_assoc.
  change (item :: first) with ([item] ++ first).
  rewrite (columnAfter_app col [item] first).
  reflexivity.
Qed.

Lemma errorItems_width (fmt : Format) (diagnostics : list Diagnostic)
  (limit col : nat) :
  col <= limit ->
  widthWithin limit col (errorItems fmt diagnostics) = true
  /\ columnAfter col (errorItems fmt diagnostics) = col.
Proof.
  intros Hcol. unfold errorItems.
  induction diagnostics as [|d ds [IHw IHc]]; [split; reflexivity|].
  cbn [map widthWithin columnAfter].
  split; [|exact IHc].
  rewrite IHw, andb_true_r. now apply Nat.leb_le.
Qed.

Lemma flushItems_width (this : Dot.State) (limit : nat) :
  widthWithin limit (Dot.dots this) (flushItems this) = true.
Proof.
  unfold flushItems. destruct (0 <? Dot.dots this)%nat; reflexivity.
Qed.

Lemma flushItems_column (this : Dot.State) :
  columnAfter (Dot.dots this) (flushItems this) = 0.
Proof.
  unfold flushItems.
  destruct (Nat.ltb_spec 0 (Dot.dots this)); cbn; [reflexivity | lia].
Qed.

(** What one event adds to the output keeps the pending marks within 80,
    when the line holds as many marks as the column count says. *)
Lemma dot_on_width (reporterEvent : Tstyche.ReporterEvent)
  (this : Dot.State) :
  Dot.dots this < 80 ->
  exists delta,
    console (reporterOf (Dot.on reporterEvent this)) = console this ++ delta
    /\ widthWithin 80 (Dot.dots this) delta = true.
Proof.
  intros Hlt. destruct reporterEvent as [kind payload].
  unfold Dot.on, Base.on; cbn [fst snd].
  destruct (route kind) as [[]|];
    try (exists []; split; [cbn; now rewrite app_nil_r | reflexivity]).
  - (* error kinds *)
    cbn. unfold Dot._onError, Base._onError, Base._printErrors; cbn [snd].
    destruct (Tstyche.diagnostics payload) as [ds|]; cbn [reporterOf].
    + rewrite printErrors_fold. cbn [console].
      exists (flushItems this ++ errorItems (format (Dot.flushDots this)) ds).
      rewrite flushDots_console, <- app_assoc. split; [reflexivity|].
      rewrite widthWithin_app, flushItems_width, flushItems_column.
      apply errorItems_width. lia.
    + exists (flushItems this). rewrite flushDots_console.
      split; [reflexivity | apply flushItems_width].
  - (* project:uses *)
    change (Base._onProjectUses Dot.methods payload this)
      with (Dot.on ("project:uses", payload) this).
    rewrite dot_on_project_uses. cbv zeta.
    destruct (strictNotEquals _ _); cbn [reporterOf console].
    + eexists. split; [reflexivity|].
      rewrite widthWithin_app, flushItems_width, flushItems_column.
      reflexivity.
    + exists []. split; [cbn; now rewrite app_nil_r | reflexivity].
  - (* test:pass *)
    cbn.
    destruct (Nat.lt_ge_cases (Dot.dots this + 1) 80) as [Hbelow|Hge].
    + destruct (writeDotChar_below "." this Hbelow) as [-> _].
      eexists. split; [reflexivity|]. cbn.
      rewrite andb_true_r. apply Nat.leb_le. lia.
    + destruct (writeDotChar_wrap "." this Hge) as [-> _].
      eexists. split; [reflexivity|]. cbn.
      rewrite andb_true_r. apply Nat.leb_le. lia.
  - (* test:fail *)
    cbn.
    destruct (Nat.lt_ge_cases (Dot.dots this + 1) 80) as [Hbelow|Hge].
    + destruct (writeDotChar_below "F" this Hbelow) as [-> _].
      eexists. split; [reflexivity|]. cbn.
      rewrite andb_true_r. apply Nat.leb_le. lia.
    + destruct (writeDotChar_wrap "F" this Hge) as [-> _].
      eexists. split; [reflexivity|]. cbn.
      rewrite andb_true_r. apply Nat.leb_le. lia.
  - (* run:end *)
    cbn. rewrite flushDots_console, <- !app_assoc.
    eexists. split; [reflexivity|].
    rewrite widthWithin_app, flushItems_width. reflexivity.
Qed.

(** X7: no line of marks grows beyond 80 characters.  When the column
    count agrees with the output, is below 80, and the marks pending so
    far were within 80, this stays so through every run in which no
    [run:start] arrives while the column count is above 0; a new reporter
    satisfies all of it. *)
Theorem dot_line_width_within_80 (events : list Tstyche.ReporterEvent) :
  forall this : Dot.State,
    lineTracked this ->
    Dot.dots this < 80 ->
    widthWithin 80 0 (console this) = true ->
    runStartsOnClosedLine events this = true ->
    widthWithin 80 0 (console (reporterOf (Dot.deliver events this))) = true.
Proof.
  induction events as [|e events IH];
    intros this Htracked Hlt Hwidth Hstarts; [exact Hwidth|].
  cbn [runStartsOnClosedLine] in Hstarts.
  apply andb_true_iff in Hstarts as [Hhere Hrest].
  assert (Htracked' : lineTracked (reporterOf (Dot.on e this))).
  { apply dot_on_lineTracked; [exact Htracked|].
    intros Hroute. rewrite Hroute in Hhere. now apply Nat.eqb_eq in Hhere. }
  pose proof (dot_on_bound e this Hlt) as Hlt'.
  assert (Hwidth' :
            widthWithin 80 0 (console (reporterOf (Dot.on e this))) = true).
  { destruct (dot_on_width e this Hlt) as (delta & -> & Hdelta).
    destruct Htracked as [Hcol _].
    rewrite widthWithin_app, Hwidth, <- Hcol. exact Hdelta. }
  unfold Dot.deliver. cbn [Base.deliver]. fold (Dot.on e this).
  destruct (Dot.on e this) as [next|next message]; cbn in *.
  - apply IH; assumption.
  - exact Hwidth'.
Qed.

Lemma dot_line_width_within_80_witness :
  lineTracked (Dot.new cliFormat)
  /\ Dot.dots (Dot.new cliFormat) < 80
  /\ widthWithin 80 0 (console (Dot.new cliFormat)) = true
  /\ runStartsOnClosedLine
       (("run:start", emptyPayload) :: projectUses "5.4"
        :: repeat ("test:pass", emptyPayload) 170
        ++ [("test:error", errorPayload [badType]);
            ("run:end", emptyPayload)])
       (Dot.new cliFormat) = true
  /\ widthWithin 80 0
       (console
          (reporterOf
             (Dot.deliver
                (("run:start", emptyPayload) :: projectUses "5.4"
                 :: repeat ("test:pass", emptyPayload) 170
                 ++ [("test:error", errorPayload [badType]);
                     ("run:end", emptyPayload)])
                (Dot.new cliFormat)))) = true.
Proof.
  assert (Htracked : lineTracked (Dot.new cliFormat))
    by (split; reflexivity).
  assert (Hlt : Dot.dots (Dot.new cliFormat) < 80) by (cbn; lia).
  split; [exact Htracked|].
  split; [exact Hlt|].
  split; [reflexivity|].
  split; [reflexivity|].
  apply (dot_line_width_within_80 _ (Dot.new cliFormat) Htracked Hlt eq_refl).
  reflexivity.
Defined.

(** X8: in the runs a producer delivers, where [run:start] comes first or
    directly after the [run:end] of the run before, no version header and
    no error line of the dot reporter is written behind pending marks:
    [run:end] leaves the line closed. *)
Theorem dot_bracketed_runs_at_line_start (fmt : Format)
  (events : list Tstyche.ReporterEvent) :
  startsFollowEnds true events = true ->
  runStartsOnClosedLine events (Dot.new fmt) = true
  /\ outOfBandAtLineStart 0
       (console (reporterOf (Dot.deliver events (Dot.new fmt)))) = true.
Proof.
  intros Hstarts.
  assert (Hclosed : runStartsOnClosedLine events (Dot.new fmt) = true).
  { apply (startsFollowEnds_closed events true); [reflexivity | exact Hstarts]. }
  split; [exact Hclosed|].
  apply (dot_deliver_lineTracked events (Dot.new fmt)); [|exact Hclosed].
  split; reflexivity.
Qed.

Lemma dot_bracketed_runs_at_line_start_witness :
  startsFollowEnds true
    [("run:start", emptyPayload); projectUses "5.4";
     ("test:pass", emptyPayload); ("test:error", errorPayload [badType]);
     ("test:fail", emptyPayload); ("run:end", emptyPayload);
     ("run:start", emptyPayload); projectUses "5.4";
     ("test:pass", emptyPayload); ("run:end", emptyPayload)] = true
  /\ outOfBandAtLineStart 0
       (console
          (reporterOf
             (Dot.deliver
                [("run:start", emptyPayload); projectUses "5.4";
                 ("test:pass", emptyPayload);
                 ("test:error", errorPayload [badType]);
                 ("test:fail", emptyPayload); ("run:end", emptyPayload);
                 ("run:start", emptyPayload); projectUses "5.4";
                 ("test:pass", emptyPayload); ("run:end", emptyPayload)]
                (Dot.new markdownFormat)))) = true.
Proof.
  split; [reflexivity|].
  apply (dot_bracketed_runs_at_line_start markdownFormat). reflexivity.
Defined.

(* ================================================================= *)
(** ** More on the version header *)

(** X9: [run:start] forgets the version shown last, so the first
    [project:uses] of a run always prints its header, also when the run
    before ended on the same version; in the dot reporter nothing is
    flushed in between, since [run:start] has reset the column count. *)
Theorem header_printed_first_in_run (version : string)
  (start payload : Tstyche.Payload) :
  Tstyche.compilerVersion payload = Some version ->
  (forall this : Dot.State,
      exists after,
        Dot.deliver [("run:start", start); ("project:uses", payload)] this
        = Returned after
        /\ console after
           = console this ++ [versionHeader (format this) (Some version)]
        /\ versions after = (Some version, Some version))
  /\ (forall this : Mocha.State,
         exists after,
           Mocha.deliver [("run:start", start); ("project:uses", payload)]
             this
           = Returned after
           /\ console after
              = console this ++ [versionHeader (format this) (Some version)]
           /\ versions after = (Some version, Some version)).
Proof.
  intros Hversion. split; intros this.
  - unfold Dot.deliver. cbn [Base.deliver].
    change (Base.on Dot.methods ("run:start", start) this)
      with (Returned (Dot.set_dotsOnCurrentLine 0
              (set_lastShownCompilerVersion None
                 (set_currentCompilerVersion None this)))).
    cbn [andThen]. fold Dot.on.
    rewrite dot_on_project_uses. cbv zeta. rewrite Hversion.
    eexists. split; [reflexivity|]. cbn. split; reflexivity.
  - unfold Mocha.deliver. cbn [Base.deliver].
    change (Base.on Mocha.methods ("run:start", start) this)
      with (Returned (Mocha.set_currentDescribeStack []
              (set_lastShownCompilerVersion None
                 (set_currentCompilerVersion None this)))).
    cbn [andThen]. fold Mocha.on.
    rewrite mocha_on_project_uses. cbv zeta. rewrite Hversion.
    eexists. split; [reflexivity|]. cbn. split; reflexivity.
Qed.

Lemma header_printed_first_in_run_witness :
  Tstyche.compilerVersion (usesPayload "5.4") = Some "5.4"
  /\ exists after,
      Dot.deliver
        [("run:start", emptyPayload); ("project:uses", usesPayload "5.4")]
        (reporterOf
           (Dot.deliver [projectUses "5.4"; ("test:pass", emptyPayload)]
              (Dot.new markdownFormat)))
      = Returned after
      /\ console after
         = [ConsoleLog
             (nl ++ "# uses TypeScript 5.4 with ./tsconfig.json" ++ nl)%string;
            StdoutWrite ".";
            ConsoleLog
                (nl ++ "# uses TypeScript 5.4 with ./tsconfig.json"
                 ++ nl)%string].
Proof.
  split; [reflexivity|].
  destruct (header_printed_first_in_run "5.4" emptyPayload (usesPayload "5.4")
              eq_refl) as [Hdot _].
  destruct (Hdot (reporterOf
                    (Dot.deliver
                       [projectUses "5.4"; ("test:pass", emptyPayload)]
                       (Dot.new markdownFormat))))
    as (after & Hrun & Hout & _).
  exists after. split; [exact Hrun|].
  rewrite Hout. reflexivity.
Defined.

(** X10: a [project:uses] payload without [compilerVersion] counts as the
    version [undefined]: nothing is printed while no version has been
    shown, and after a version was shown a header reading
    "uses TypeScript undefined with ./tsconfig.json" is printed and the
    version shown last is [undefined] again. *)
Theorem project_uses_without_version (payload : Tstyche.Payload) :
  Tstyche.compilerVersion payload = None ->
  (forall this : Dot.State,
      (lastShownCompilerVersion this = None ->
       console (reporterOf (Dot.on ("project:uses", payload) this))
       = console this)
      /\ (lastShownCompilerVersion this <> None ->
          console (reporterOf (Dot.on ("project:uses", payload) this))
          = console this ++ flushItems this
            ++ [ConsoleLog
                  (MarkdownOrChalk.header (format this)
                     "uses TypeScript undefined with ./tsconfig.json" 1)]
          /\ lastShownCompilerVersion
               (reporterOf (Dot.on ("project:uses", payload) this)) = None))
  /\ (forall this : Mocha.State,
         (lastShownCompilerVersion this = None ->
          console (reporterOf (Mocha.on ("project:uses", payload) this))
          = console this)
         /\ (lastShownCompilerVersion this <> None ->
             console (reporterOf (Mocha.on ("project:uses", payload) this))
             = console this
               ++ [ConsoleLog
                     (MarkdownOrChalk.header (format this)
                        "uses TypeScript undefined with ./tsconfig.json" 1)]
             /\ lastShownCompilerVersion
                  (reporterOf (Mocha.on ("project:uses", payload) this))
                = None)).
Proof.
  intros Hversion. split; intros this.
  - rewrite dot_on_project_uses. cbv zeta. rewrite Hversion.
    split; intros Hlast.
    + rewrite Hlast. reflexivity.
    + destruct (lastShownCompilerVersion this); [|congruence].
      split; reflexivity.
  - rewrite mocha_on_project_uses. cbv zeta. rewrite Hversion.
    split; intros Hlast.
    + rewrite Hlast. reflexivity.
    + destruct (lastShownCompilerVersion this); [|congruence].
      split; reflexivity.
Qed.

Lemma project_uses_without_version_witness :
  Tstyche.compilerVersion emptyPayload = None
  /\ console
       (reporterOf (Mocha.on ("project:uses", emptyPayload)
                      (Mocha.new markdownFormat)))
     = []
  /\ console
       (reporterOf
          (Mocha.on ("project:uses", emptyPayload)
             (reporterOf (Mocha.on (projectUses "5.4")
                            (Mocha.new markdownFormat)))))
     = [ConsoleLog
         (nl ++ "# uses TypeScript 5.4 with ./tsconfig.json" ++ nl)%string;
        ConsoleLog
            (nl ++ "# uses TypeScript undefined with ./tsconfig.json"
             ++ nl)%string].
Proof.
  destruct (project_uses_without_version emptyPayload eq_refl)
    as [_ Hmocha].
  split; [reflexivity|].
  split.
  - apply (Hmocha (Mocha.new markdownFormat)). reflexivity.
  - destruct (Hmocha (reporterOf (Mocha.on (projectUses "5.4")
                                    (Mocha.new markdownFormat))))
      as [_ Hshown].
    destruct Hshown as [Hout _]; [discriminate|].
    rewrite Hout. reflexivity.
Defined.

(* ================================================================= *)
(** ** More on error events *)

Lemma stdoutText_app (first second : list OutItem) :
  stdoutText (first ++ second)
  = (stdoutText first ++ stdoutText second)%string.
Proof.
  induction first as [|[chunk|line|line] first IH]; cbn;
    rewrite ?IH, ?append_assoc; reflexivity.
Qed.

Lemma errorItems_stdout (fmt : Format) (diagnostics : list Diagnostic) :
  stdoutText (errorItems fmt diagnostics) = ""
  /\ length (errorItems fmt diagnostics) = length diagnostics.
Proof.
  unfold errorItems. split; [|apply length_map].
  induction diagnostics as [|d ds IH]; [reflexivity | exact IH].
Qed.

(** X11: an error event whose payload has no [diagnostics] makes [on]
    throw, but only after the renderer has prepared the line: the dot
    reporter has flushed its pending marks, the mocha reporter has printed
    its empty line; the base class has done nothing. *)
Theorem error_without_diagnostics_throws_late (kind : string)
  (payload : Tstyche.Payload) :
  In kind errorKinds ->
  Tstyche.diagnostics payload = None ->
  (forall this : Dot.State,
      throws (Dot.on (kind, payload) this) = true
      /\ reporterOf (Dot.on (kind, payload) this) = Dot.flushDots this)
  /\ (forall this : Mocha.State,
         throws (Mocha.on (kind, payload) this) = true
         /\ reporterOf (Mocha.on (kind, payload) this)
            = emit (ConsoleLog "") this)
  /\ (forall this : Reporter unit,
         throws (baseOn (kind, payload) this) = true
         /\ reporterOf (baseOn (kind, payload) this) = this).
Proof.
  intros Hkind Hnone. apply route_error in Hkind.
  repeat split;
    unfold baseOn, Dot.on, Mocha.on, Base.on; cbn [fst snd]; rewrite Hkind;
    cbn; unfold Dot._onError, Mocha._onError, Base._onError, Base._printErrors;
    cbn [snd]; rewrite Hnone; reflexivity.
Qed.

Lemma error_without_diagnostics_throws_late_witness :
  In "file:error" errorKinds
  /\ Tstyche.diagnostics emptyPayload = None
  /\ console
       (reporterOf
          (Dot.on ("file:error", emptyPayload)
             (Dot.writeDotChar "." (Dot.new markdownFormat))))
     = [StdoutWrite "."; ConsoleLog ""].
Proof.
  assert (Hkind : In "file:error" errorKinds)
    by (unfold errorKinds; simpl; tauto).
  split; [exact Hkind|].
  split; [reflexivity|].
  destruct (error_without_diagnostics_throws_late "file:error" emptyPayload
              Hkind eq_refl) as [Hdot _].
  destruct (Hdot (Dot.writeDotChar "." (Dot.new markdownFormat)))
    as [_ ->].
  reflexivity.
Defined.

(** X12: on an error event the mocha reporter prints one empty line and
    then one error line per diagnostic, in order; the empty line is
    printed also when there is no diagnostic.  Standard output gains the
    empty line only, and the describe stack and the versions are kept. *)
Theorem mocha_error_event (kind : string) (payload : Tstyche.Payload)
  (diagnostics : list Diagnostic) (this : Mocha.State) :
  In kind errorKinds ->
  Tstyche.diagnostics payload = Some diagnostics ->
  exists after,
    Mocha.on (kind, payload) this = Returned after
    /\ console after
       = console this
         ++ ConsoleLog "" :: errorItems (format this) diagnostics
    /\ length (console after) = length (console this) + 1 + length diagnostics
    /\ stdoutText (console after) = (stdoutText (console this) ++ nl)%string
    /\ Mocha.stack after = Mocha.stack this
    /\ versions after = versions this.
Proof.
  intros Hkind Hds. apply route_error in Hkind.
  unfold Mocha.on, Base.on; cbn [fst snd]. rewrite Hkind. cbn.
  unfold Mocha._onError, Base._onError; cbn [snd].
  rewrite (printErrors_Some payload diagnostics _ Hds).
  eexists. split; [reflexivity|].
  destruct (errorItems_stdout (format this) diagnostics) as [Hout Hlen].
  cbn [console emit format]. rewrite <- app_assoc.
  split; [reflexivity|].
  split.
  { rewrite length_app. cbn [app length]. rewrite Hlen. lia. }
  split.
  { rewrite stdoutText_app. cbn [app stdoutText]. rewrite Hout.
    now rewrite append_empty_r. }
  split; reflexivity.
Qed.

Lemma mocha_error_event_witness :
  In "expect:error" errorKinds
  /\ Tstyche.diagnostics (errorPayload []) = Some []
  /\ exists after,
      Mocha.on ("expect:error", errorPayload []) (Mocha.new cliFormat)
      = Returned after
      /\ console after = [ConsoleLog ""].
Proof.
  assert (Hkind : In "expect:error" errorKinds)
    by (unfold errorKinds; simpl; tauto).
  split; [exact Hkind|].
  split; [reflexivity|].
  destruct (mocha_error_event "expect:error" (errorPayload []) []
              (Mocha.new cliFormat) Hkind eq_refl)
    as (after & Hon & Hout & _).
  exists after. split; [exact Hon|].
  rewrite Hout. reflexivity.
Defined.

(* ================================================================= *)
(** ** More on the mocha reporter *)

(** The describe entries that [describe:start] events push. *)
Lemma mocha_deliver_starts (starts : list Tstyche.Payload) :
  forall this : Mocha.State,
    exists after,
      Mocha.deliver (map (pair "describe:start") starts) this = Returned after
      /\ Mocha.stack after
         = Mocha.stack this
           ++ map (fun payload => Mocha.mkDescribe (Mocha.describeName payload))
                  starts
      /\ versions after = versions this.
Proof.
  induction starts as [|payload starts IH]; intros this.
  - exists this. cbn. now rewrite app_nil_r.
  - destruct (IH (Mocha.printDescribeStart
                    (Mocha.mkDescribe (Mocha.describeName payload))
                    (length (Mocha.stack this
                             ++ [Mocha.mkDescribe (Mocha.describeName payload)])
                     - 1)
                    (Mocha.set_currentDescribeStack
                       (Mocha.stack this
                        ++ [Mocha.mkDescribe (Mocha.describeName payload)])
                       this)))
      as (after & Hrun & Hstack & Hversions).
    exists after. split; [exact Hrun|].
    split; [|exact Hversions].
    rewrite Hstack. cbn [map]. unfold Mocha.stack at 1; cbn.
    rewrite <- app_assoc. reflexivity.
Qed.

(** As many [describe:end] events as there are entries on top of [below]
    pop exactly those. *)
Lemma mocha_deliver_ends (ends : list Tstyche.Payload) :
  forall (this : Mocha.State) (below top : list Mocha.Describe),
    Mocha.stack this = below ++ top ->
    length top = length ends ->
    exists after,
      Mocha.deliver (map (pair "describe:end") ends) this = Returned after
      /\ Mocha.stack after = below
      /\ console after = console this
      /\ versions after = versions this.
Proof.
  induction ends as [|payload ends IH]; intros this below top Hstack Hlen.
  - destruct top; [|discriminate]. rewrite app_nil_r in Hstack.
    exists this. repeat split; assumption.
  - destruct (exists_last (l := top)) as (top' & d & ->).
    { intros ->. discriminate. }
    rewrite length_app in Hlen. cbn in Hlen.
    destruct (IH (Mocha.set_currentDescribeStack
                    (removelast (Mocha.stack this)) this)
                below top') as (after & Hrun & Hbelow & Hout & Hversions).
    { unfold Mocha.stack at 1; cbn.
      rewrite Hstack, app_assoc. apply removelast_last. }
    { lia. }
    exists after. split; [exact Hrun|].
    repeat split; assumption.
Qed.

(** X13: the describe stack is balanced: after any number of
    [describe:start] events followed by as many [describe:end] events the
    stack is what it was, whatever it was; and [describe:end] on an empty
    stack pops nothing, prints nothing and does not throw. *)
Theorem mocha_describe_stack_balanced :
  (forall (starts ends : list Tstyche.Payload) (this : Mocha.State),
      length starts = length ends ->
      exists after,
        Mocha.deliver
          (map (pair "describe:start") starts
           ++ map (pair "describe:end") ends) this
        = Returned after
        /\ Mocha.stack after = Mocha.stack this
        /\ versions after = versions this)
  /\ (forall (payload : Tstyche.Payload) (this : Mocha.State),
         Mocha.stack this = [] ->
         exists after,
           Mocha.on ("describe:end", payload) this = Returned after
           /\ Mocha.stack after = []
           /\ console after = console this).
Proof.
  split.
  - intros starts ends this Hlen.
    destruct (mocha_deliver_starts starts this)
      as (inner & Hstarts & Hstack & Hversions).
    destruct (mocha_deliver_ends ends inner (Mocha.stack this)
                (map (fun payload =>
                        Mocha.mkDescribe (Mocha.describeName payload)) starts)
                Hstack)
      as (after & Hends & Hbelow & _ & Hversions').
    { now rewrite length_map. }
    exists after. unfold Mocha.deliver in *.
    rewrite deliver_app, Hstarts. cbn [andThen].
    split; [exact Hends|].
    split; [exact Hbelow | congruence].
  - intros payload this Hempty.
    eexists. split; [reflexivity|].
    unfold Mocha.stack at 1; cbn. rewrite Hempty. split; reflexivity.
Qed.

Lemma mocha_describe_stack_balanced_witness :
  length [describePayload "A"; emptyPayload]
  = length [emptyPayload; emptyPayload]
  /\ (exists after,
         Mocha.deliver
           (map (pair "describe:start") [describePayload "A"; emptyPayload]
            ++ map (pair "describe:end") [emptyPayload; emptyPayload])
           (Mocha.new markdownFormat)
         = Returned after
         /\ Mocha.stack after = [])
  /\ Mocha.stack (Mocha.new markdownFormat) = []
  /\ exists after,
      Mocha.on ("describe:end", emptyPayload) (Mocha.new markdownFormat)
      = Returned after
      /\ console after = [].
Proof.
  destruct mocha_describe_stack_balanced as [Hbalanced Hempty].
  split; [reflexivity|].
  split.
  - destruct (Hbalanced [describePayload "A"; emptyPayload]
                [emptyPayload; emptyPayload] (Mocha.new markdownFormat)
                eq_refl) as (after & Hrun & Hstack & _).
    exists after. split; [exact Hrun | exact Hstack].
  - split; [reflexivity|].
    destruct (Hempty emptyPayload (Mocha.new markdownFormat) eq_refl)
      as (after & Hon & _ & Hout).
    exists after. split; [exact Hon | exact Hout].
Defined.

(** X14: [describe:start] pushes one entry and prints one heading: of
    level 2 when the stack was empty, of level 3 at any deeper nesting;
    the name is ["describe"] when the payload has no [result], no
    [result.describe] or no name. *)
Theorem mocha_describe_heading (payload : Tstyche.Payload)
  (this : Mocha.State) :
  (exists after,
      Mocha.on ("describe:start", payload) this = Returned after
      /\ Mocha.stack after
         = Mocha.stack this
           ++ [Mocha.mkDescribe (Mocha.describeName payload)]
      /\ console after
         = console this
           ++ [ConsoleLog
                 (MarkdownOrChalk.header (format this)
                    (Mocha.describeName payload)
                    (match Mocha.stack this with [] => 2 | _ :: _ => 3 end))])
  /\ (Tstyche.result payload = None
      \/ Tstyche.result payload = Some (Tstyche.mkResult None None)
      \/ Tstyche.result payload
         = Some (Tstyche.mkResult (Some (Tstyche.mkNamed None)) None) ->
      Mocha.describeName payload = "describe").
Proof.
  split.
  - eexists. split; [reflexivity|].
    split; [reflexivity|].
    unfold Mocha.printDescribeStart, Mocha.stack; cbn.
    rewrite length_app. cbn [length].
    destruct (Mocha.currentDescribeStack (own this)) as [|d stack];
      [reflexivity|].
    cbn [length].
    replace (S (length stack) + 1 - 1) with (S (length stack)) by lia.
    reflexivity.
  - unfold Mocha.describeName. intros [-> | [-> | ->]]; reflexivity.
Qed.

Lemma mocha_describe_heading_witness :
  Tstyche.result emptyPayload = None
  /\ Mocha.describeName emptyPayload = "describe"
  /\ console
       (reporterOf
          (Mocha.deliver
             [("describe:start", describePayload "A");
              ("describe:start", emptyPayload);
              ("describe:start", describePayload "C")]
             (Mocha.new markdownFormat)))
     = [ConsoleLog
         (nl ++ "## A" ++ nl)%string;
         ConsoleLog (nl ++ "### describe" ++ nl)%string;
         ConsoleLog (nl ++ "### C" ++ nl)%string].
Proof.
  split; [reflexivity|].
  split.
  - apply (mocha_describe_heading emptyPayload (Mocha.new markdownFormat)).
    left. reflexivity.
  - reflexivity.
Defined.

(** X15: without a colorizer (markdown mode) a test line is the mark, a
    space and the test name, whatever the depth of the describe stack:
    neither color nor indentation is applied; the name is ["test"] when
    the payload carries none. *)
Theorem mocha_markdown_test_line (payload : Tstyche.Payload)
  (this : Mocha.State) :
  MarkdownOrChalk.chalk (format this) = None ->
  console (reporterOf (Mocha.on ("test:pass", payload) this))
  = console this
    ++ [ConsoleLog
          (MarkdownOrChalk.logSymbols_success (format this)
           ++ " " ++ Mocha.testName payload)%string]
  /\ console (reporterOf (Mocha.on ("test:fail", payload) this))
     = console this
       ++ [ConsoleLog
             (MarkdownOrChalk.logSymbols_error (format this)
              ++ " " ++ Mocha.testName payload)%string]
  /\ (Tstyche.result payload = None -> Mocha.testName payload = "test").
Proof.
  intros Hchalk.
  change (Mocha.on ("test:pass", payload) this)
    with (Returned (Mocha.printTest (Mocha.testName payload) true
                      (length (Mocha.stack this)) this)).
  change (Mocha.on ("test:fail", payload) this)
    with (Returned (Mocha.printTest (Mocha.testName payload) false
                      (length (Mocha.stack this)) this)).
  unfold Mocha.printTest. cbv zeta. rewrite Hchalk.
  split; [reflexivity|].
  split; [reflexivity|].
  unfold Mocha.testName. intros ->. reflexivity.
Qed.

Lemma mocha_markdown_test_line_witness :
  MarkdownOrChalk.chalk
    (format
       (reporterOf
          (Mocha.deliver
             [("describe:start", describePayload "A");
              ("describe:start", describePayload "B")]
             (Mocha.new markdownFormat)))) = None
  /\ console
       (reporterOf
          (Mocha.on ("test:pass", testPayload "x")
             (reporterOf
                (Mocha.deliver
                   [("describe:start", describePayload "A");
                    ("describe:start", describePayload "B")]
                   (Mocha.new markdownFormat)))))
     = [ConsoleLog
         (nl ++ "## A" ++ nl)%string; ConsoleLog (nl ++ "### B" ++ nl)%string;
        ConsoleLog ":white_check_mark: x"].
Proof.
  split; [reflexivity|].
  destruct (mocha_markdown_test_line (testPayload "x")
              (reporterOf
                 (Mocha.deliver
                    [("describe:start", describePayload "A");
                     ("describe:start", describePayload "B")]
                    (Mocha.new markdownFormat)))
              eq_refl) as [Hpass _].
  rewrite Hpass. reflexivity.
Defined.

(** The mocha reporter emits whole lines only. *)
Lemma mocha_on_marks (reporterEvent : Tstyche.ReporterEvent)
  (this : Mocha.State) :
  marks (console (reporterOf (Mocha.on reporterEvent this)))
  = marks (console this).
Proof.
  destruct reporterEvent as [kind payload].
  unfold Mocha.on, Base.on; cbn [fst snd].
  destruct (route kind) as [[]|]; try reflexivity; cbn.
  - unfold Mocha._onError, Base._onError; cbn [snd].
    destruct (printErrors_frame payload (emit (ConsoleLog "") this))
      as (_ & _ & _ & Hmarks).
    cbv zeta in Hmarks. rewrite Hmarks. cbn.
    rewrite marks_app. apply app_nil_r.
  - change (Base._onProjectUses Mocha.methods payload this)
      with (Mocha.on ("project:uses", payload) this).
    rewrite mocha_on_project_uses. cbv zeta.
    destruct (strictNotEquals _ _); cbn; [|reflexivity].
    rewrite marks_app. apply app_nil_r.
  - rewrite marks_app. apply app_nil_r.
  - rewrite marks_app. apply app_nil_r.
  - rewrite marks_app. apply app_nil_r.
  - rewrite marks_app. apply app_nil_r.
Qed.

(** X16: the mocha reporter never calls [process.stdout.write]: whatever
    events are delivered, it adds no chunk to the output, so all it
    prints are whole lines, and a new reporter never leaves a line open. *)
Theorem mocha_writes_whole_lines (events : list Tstyche.ReporterEvent) :
  (forall this : Mocha.State,
      marks (console (reporterOf (Mocha.deliver events this)))
      = marks (console this))
  /\ (forall fmt : Format,
         marks (console (reporterOf (Mocha.deliver events (Mocha.new fmt))))
         = []).
Proof.
  assert (Hall : forall this : Mocha.State,
             marks (console (reporterOf (Mocha.deliver events this)))
             = marks (console this)).
  { induction events as [|e events IH]; intros this; [reflexivity|].
    unfold Mocha.deliver. cbn [Base.deliver].
    pose proof (mocha_on_marks e this) as Hstep. unfold Mocha.on in Hstep.
    destruct (Base.on Mocha.methods e this) as [next|next message];
      cbn in *; [|exact Hstep].
    fold (Mocha.deliver events next). now rewrite IH. }
  split; [exact Hall|].
  intros fmt. now rewrite Hall.
Qed.

(** X17: [file:start] empties the describe stack, so a test that follows
    it is printed at depth 0, without a call of [format.indent], however
    many describe blocks were open before; [run:end] prints one empty
    line and keeps the stack. *)
Theorem mocha_file_start_resets_depth (file payload : Tstyche.Payload)
  (this : Mocha.State) :
  (exists after,
      Mocha.deliver [("file:start", file); ("test:pass", payload)] this
      = Returned after
      /\ Mocha.stack after = []
      /\ console after
         = console this
           ++ [ConsoleLog
                 (match MarkdownOrChalk.chalk (format this) with
                  | Some chalk =>
                      MarkdownOrChalk.gray chalk
                        (MarkdownOrChalk.logSymbols_success (format this)
                         ++ " " ++ Mocha.testName payload)%string
                  | None =>
                      (MarkdownOrChalk.logSymbols_success (format this)
                       ++ " " ++ Mocha.testName payload)%string
                  end)])
  /\ (exists after,
         Mocha.on ("run:end", payload) this = Returned after
         /\ Mocha.stack after = Mocha.stack this
         /\ console after = console this ++ [ConsoleLog ""]).
Proof.
  split.
  - eexists. split; [reflexivity|].
    split; [reflexivity|].
    unfold Mocha.recordTest, Mocha.printTest; cbn.
    destruct (MarkdownOrChalk.chalk (format this)); reflexivity.
  - eexists. split; [reflexivity|]. split; reflexivity.
Qed.

(* ================================================================= *)
(** ** The base class on its own *)

Lemma route_abstract (kind : string) :
  In kind abstractKinds
  <-> route kind = Some RTestPass \/ route kind = Some RTestFail
      \/ route kind = Some RRunEnd.
Proof.
  split.
  - unfold abstractKinds. cbn [In].
    intros [<- | [<- | [<- | []]]]; [left | right; left | right; right];
      reflexivity.
  - unfold route, isOneOf, errorKinds, nonImplementedKinds, abstractKinds.
    cbn [existsb In].
    destruct (String.eqb_spec kind "test:pass") as [->|_]; [tauto|].
    destruct (String.eqb_spec kind "test:fail") as [->|_]; [tauto|].
    destruct (String.eqb_spec kind "run:end") as [->|_]; [tauto|].
    each_label kind ltac:(intros [H | [H | H]]; discriminate).
    intros [H | [H | H]]; discriminate.
Qed.

(** X18: a reporter of the base class itself throws on [test:pass],
    [test:fail] and [run:end], whose handlers a subclass must supply, and
    on the kinds no [case] names, and on nothing else that has a
    well-formed payload; when it throws it has changed and printed
    nothing. *)
Theorem base_class_throws_on_abstract_handlers (kind : string)
  (payload : Tstyche.Payload) (this : Reporter unit) :
  wellFormed kind payload = true ->
  (throws (baseOn (kind, payload) this) = true
   <-> In kind abstractKinds \/ ~ In kind knownKinds)
  /\ (throws (baseOn (kind, payload) this) = true ->
      reporterOf (baseOn (kind, payload) this) = this).
Proof.
  intros Hwf. unfold wellFormed in Hwf.
  rewrite route_abstract, <- route_None_iff.
  unfold baseOn, Base.on; cbn [fst snd].
  destruct (route kind) as [[]|] eqn:Hroute; cbn;
    try (split; [split; [discriminate | intros [[H|[H|H]]|H]; discriminate]
                | discriminate]);
    try (split; [split; [tauto | reflexivity] | reflexivity]).
  - unfold Base._onError; cbn [snd].
    destruct (Tstyche.diagnostics payload) as [ds|] eqn:Hd; [|discriminate].
    rewrite (printErrors_Some payload ds _ Hd). cbn.
    split; [split; [discriminate | intros [[H|[H|H]]|H]; discriminate]
           | discriminate].
  - rewrite onProjectUses_returns.
    split; [split; [discriminate | intros [[H|[H|H]]|H]; discriminate]
           | discriminate].
Qed.

Lemma base_class_throws_on_abstract_handlers_witness :
  wellFormed "run:end" emptyPayload = true
  /\ throws (baseOn ("run:end", emptyPayload) (Base.new cliFormat tt)) = true
  /\ reporterOf (baseOn ("run:end", emptyPayload) (Base.new cliFormat tt))
     = Base.new cliFormat tt.
Proof.
  split; [reflexivity|].
  destruct (base_class_throws_on_abstract_handlers "run:end" emptyPayload
              (Base.new cliFormat tt) eq_refl) as [Hiff Hsame].
  assert (Hthrows :
            throws (baseOn ("run:end", emptyPayload) (Base.new cliFormat tt))
            = true).
  { apply Hiff. left. unfold abstractKinds; simpl; tauto. }
  split; [exact Hthrows | exact (Hsame Hthrows)].
Defined.

(* ================================================================= *)
(** ** Events without effect *)

Lemma route_nonImplemented (kind : string) :
  In kind nonImplementedKinds -> route kind = Some RNonImplemented.
Proof.
  unfold nonImplementedKinds. cbn [In].
  intros H.
  repeat (destruct H as [<- | H]; [reflexivity|]).
  destruct H.
Qed.

(** X20: events of the not-yet-implemented kinds change and print nothing
    in either reporter, and the dot reporter likewise ignores
    [file:start], [describe:start] and [describe:end]: its output does
    not depend on how tests are grouped. *)
Theorem events_without_effect (kind : string) (payload : Tstyche.Payload) :
  (In kind nonImplementedKinds ->
   (forall this : Dot.State, Dot.on (kind, payload) this = Returned this)
   /\ (forall this : Mocha.State,
          Mocha.on (kind, payload) this = Returned this))
  /\ (In kind ["file:start"; "describe:start"; "describe:end"] ->
      forall this : Dot.State, Dot.on (kind, payload) this = Returned this).
Proof.
  split.
  - intros Hkind. apply route_nonImplemented in Hkind.
    split; intros this; unfold Dot.on, Mocha.on, Base.on; cbn [fst snd];
      rewrite Hkind; reflexivity.
  - cbn [In]. intros [<- | [<- | [<- | []]]] this; reflexivity.
Qed.

Lemma events_without_effect_witness :
  In "expect:fail" nonImplementedKinds
  /\ In "describe:start" ["file:start"; "describe:start"; "describe:end"]
  /\ Mocha.on ("expect:fail", emptyPayload) (Mocha.new cliFormat)
     = Returned (Mocha.new cliFormat)
  /\ Dot.on ("describe:start", describePayload "A") (Dot.new cliFormat)
     = Returned (Dot.new cliFormat).
Proof.
  assert (H1 : In "expect:fail" nonImplementedKinds)
    by (unfold nonImplementedKinds; simpl; tauto).
  assert (H2 : In "describe:start"
                  ["file:start"; "describe:start"; "describe:end"])
    by (simpl; tauto).
  destruct (events_without_effect "expect:fail" emptyPayload) as [Hnone _].
  destruct (events_without_effect "describe:start" (describePayload "A"))
    as [_ Hdot].
  split; [exact H1|].
  split; [exact H2|].
  split.
  - apply (Hnone H1).
  - apply (Hdot H2).
Defined.
